(** * songscraper: a shallow embedding of [songscraper.py]

    The program resolves references (tab URLs or search words) to song
    identifiers, selects a revision for each song and downloads the
    revision's Guitar Pro file.  This development embeds the functions of
    [songscraper.py] as Rocq definitions and proves the properties the
    specification states about them.

    Modelling conventions.
    - A Python [str] is a [string]; a character is a code point in
      [0, 255] (Rocq's [ascii]).  The character classes of the Python
      library ([\d], [str.isdigit], [str.isspace]) are the ones the library
      has on that range.
    - A Python [int] is a [Z].  The interpreter's optional limit on the
      number of digits [int()] converts is not modelled.
    - A Python exception is a value of [exn]; a function that may raise
      returns [result A].  The messages of the exceptions this program
      raises itself are the program's; those of exceptions raised by the
      Python library are informative only.
    - Console and network effects are threaded through a [World]: the lines
      still to be read on standard input and the trace of events so far. *)

From Stdlib Require Import ZArith Ascii String List Bool Lia.
From Stdlib Require Import DecimalString DecimalPos.
From stdpp Require Import base tactics option list sets gmap strings.

Local Open Scope string_scope.
Local Open Scope list_scope.
Local Open Scope Z_scope.

#[local] Set Warnings "-clear-no-such-hyp".

(** [simpl] unfolds an append on a string that starts with a character. *)
#[local] Arguments String.append !_ _ / : simpl nomatch.

(** ** Exceptions and results *)

Inductive exn : Type :=
  | ValueError (msg : string)
  | RuntimeError (msg : string)
  | EOFError
  | IndexError
  | RequestException (msg : string)
  | OSError (msg : string).

Inductive result (A : Type) : Type :=
  | Ok (a : A)
  | Raise (e : exn).
Arguments Ok {A} a.
Arguments Raise {A} e.

(** The error names of the specification, as the exceptions the program
    raises for them. *)
Module Errors.
Definition NoInputError : exn :=
  RuntimeError "No URLs or search selection provided".
Definition EmptySearchError : exn :=
  RuntimeError "Search text cannot be empty".
Definition NoResultsError : exn :=
  RuntimeError "No songs found for search".
Definition NoRevisionsError : exn :=
  RuntimeError "No revisions returned".
End Errors.
Import Errors.

(** ** The Python string library, on code points below 256 *)

Module Py.

Definition chr (n : nat) : ascii := ascii_of_nat n.
Definition ord (c : ascii) : nat := nat_of_ascii c.

(** [\d] of the [re] module and the digits [int()] accepts: the decimal
    digits, which below 256 are ['0'] to ['9']. *)
Definition is_decimal (c : ascii) : bool :=
  (48 <=? ord c)%nat && (ord c <=? 57)%nat.

(** [str.isdigit] on one character: the decimal digits and the three
    superscript digits U+00B2, U+00B3 and U+00B9. *)
Definition char_isdigit (c : ascii) : bool :=
  is_decimal c || (ord c =? 178)%nat || (ord c =? 179)%nat
  || (ord c =? 185)%nat.

(** [str.isspace] on one character. *)
Definition char_isspace (c : ascii) : bool :=
  ((9 <=? ord c)%nat && (ord c <=? 13)%nat)
  || ((28 <=? ord c)%nat && (ord c <=? 32)%nat)
  || (ord c =? 133)%nat || (ord c =? 160)%nat.

Fixpoint all_chars (p : ascii -> bool) (s : string) : bool :=
  match s with
  | EmptyString => true
  | String c s' => p c && all_chars p s'
  end.

(** [s.isdigit()]: at least one character, and all of them digits. *)
Definition isdigit (s : string) : bool :=
  match s with
  | EmptyString => false
  | _ => all_chars char_isdigit s
  end.

Fixpoint lstrip (s : string) : string :=
  match s with
  | EmptyString => EmptyString
  | String c s' => if char_isspace c then lstrip s' else s
  end.

Fixpoint rstrip (s : string) : string :=
  match s with
  | EmptyString => EmptyString
  | String c s' =>
      match rstrip s' with
      | EmptyString => if char_isspace c then EmptyString
                       else String c EmptyString
      | t => String c t
      end
  end.

(** [s.strip()] *)
Definition strip (s : string) : string := rstrip (lstrip s).

(** [s.startswith(p)] *)
Definition startswith (s p : string) : bool := String.prefix p s.

(** [sep.join(l)] *)
Definition join (sep : string) (l : list string) : string :=
  String.concat sep l.

Definition digit_value (c : ascii) : Z := Z.of_nat (ord c) - 48.

Fixpoint int_digits (acc : Z) (s : string) : Z :=
  match s with
  | EmptyString => acc
  | String c s' => int_digits (10 * acc + digit_value c) s'
  end.

(** [int(s)] for a string [s] on which [isdigit] or [\d+] succeeded: the
    value in base ten when every character is a decimal digit, and a
    [ValueError] otherwise (the superscript digits are digits for
    [isdigit] and not for [int]). *)
Definition int (s : string) : result Z :=
  match s with
  | EmptyString => Raise (ValueError "invalid literal for int() with base 10")
  | _ => if all_chars is_decimal s then Ok (int_digits 0 s)
         else Raise (ValueError "invalid literal for int() with base 10")
  end.

(** [str(n)] for an integer. *)
Definition str (n : Z) : string := NilZero.string_of_int (Z.to_int n).

(** [max(l)] over integers: the running maximum, replaced only by a
    strictly greater item; a [ValueError] on the empty sequence. *)
Definition max (l : list Z) : result Z :=
  match l with
  | [] => Raise (ValueError "max() arg is an empty sequence")
  | x :: xs => Ok (fold_left (fun m y => if m <? y then y else m) xs x)
  end.

(** Slices [s[:n]] and [s[n:]]. *)
Fixpoint take (n : nat) (s : string) : string :=
  match n, s with
  | S n', String c s' => String c (take n' s')
  | _, _ => EmptyString
  end.

Fixpoint drop (n : nat) (s : string) : string :=
  match n, s with
  | S n', String _ s' => drop n' s'
  | _, _ => s
  end.

(** [s.rfind(c)] for a one-character [c], on the string [s] whose first
    character has index [i]: the highest index of [c], or [-1]. *)
Fixpoint rfind_from (c : ascii) (s : string) (i : Z) : Z :=
  match s with
  | EmptyString => -1
  | String x s' =>
      let r := rfind_from c s' (i + 1) in
      if 0 <=? r then r else if Ascii.eqb x c then i else -1
  end.

Definition rfind (s : string) (c : ascii) : Z := rfind_from c s 0.

(** [s.endswith(c)] for a one-character [c]. *)
Fixpoint endswith_char (s : string) (c : ascii) : bool :=
  match s with
  | EmptyString => false
  | String x EmptyString => Ascii.eqb x c
  | String _ s' => endswith_char s' c
  end.

(** The loop of [os.path.splitext] that skips the leading dots of the
    file name: whether one of the [n] characters from [filenameIndex] on
    is not a dot. *)
Fixpoint skip_leading_dots (p : string) (filenameIndex n : nat) : bool :=
  match n with
  | O => false
  | S n' =>
      match String.get filenameIndex p with
      | Some c =>
          if Ascii.eqb c "." then skip_leading_dots p (S filenameIndex) n'
          else true
      | None => true
      end
  end.

(** [os.path.splitext(p)] of [posixpath]. *)
Definition splitext (p : string) : string * string :=
  let sepIndex := rfind p "/" in
  let dotIndex := rfind p "." in
  if (sepIndex <? dotIndex)
     && skip_leading_dots p (Z.to_nat (sepIndex + 1))
          (Z.to_nat (dotIndex - (sepIndex + 1)))
  then (take (Z.to_nat dotIndex) p, drop (Z.to_nat dotIndex) p)
  else (p, EmptyString).

(** [os.path.join(a, b)] of [posixpath]. *)
Definition path_join (a b : string) : string :=
  if startswith b "/" then b
  else if String.eqb a EmptyString || endswith_char a "/" then a +:+ b
  else a +:+ "/" +:+ b.

(** The characters [str.splitlines] breaks a line at. *)
Definition is_linebreak (c : ascii) : bool :=
  ((10 <=? ord c)%nat && (ord c <=? 13)%nat)
  || ((28 <=? ord c)%nat && (ord c <=? 30)%nat)
  || (ord c =? 133)%nat.

(** The scan of [str.splitlines]: [cur] is the line in progress, if any
    character of it has been read, and [after_cr] says that the character
    before was a carriage return, whose line feed belongs to it. *)
Fixpoint splitlines_go (s : string) (cur : option string) (after_cr : bool)
    : list string :=
  match s with
  | EmptyString =>
      match cur with
      | None => []
      | Some line => [line]
      end
  | String c s' =>
      if after_cr && Ascii.eqb c (chr 10) then splitlines_go s' None false
      else if is_linebreak c
      then default EmptyString cur :: splitlines_go s' None (Ascii.eqb c (chr 13))
      else splitlines_go s' (Some (default EmptyString cur +:+ String c EmptyString))
             false
  end.

(** [s.splitlines()] *)
Definition splitlines (s : string) : list string :=
  splitlines_go s None false.

End Py.

(** ** Identifier extraction *)

(** The greedy [\d+] of the pattern: the longest prefix of decimal digits,
    and what follows it. *)
Fixpoint span_digits (s : string) : string * string :=
  match s with
  | EmptyString => (EmptyString, EmptyString)
  | String c s' =>
      if Py.is_decimal c
      then let '(ds, rest) := span_digits s' in (String c ds, rest)
      else (EmptyString, s)
  end.

(** An attempt to match [-s(\d+)] at the start of [s]; the result is group 1. *)
Definition match_here (s : string) : option string :=
  match s with
  | String "-" (String "s" rest) =>
      match fst (span_digits rest) with
      | EmptyString => None
      | ds => Some ds
      end
  | _ => None
  end.

(** [re.search(r"-s(\d+)", s)]: the match at the leftmost position where
    the pattern matches; the result is [m.group(1)]. *)
Fixpoint re_search (s : string) : option string :=
  match match_here s with
  | Some ds => Some ds
  | None =>
      match s with
      | EmptyString => None
      | String _ s' => re_search s'
      end
  end.

Definition extract_song_id (url : string) : result Z :=
  match re_search url with
  | None => Raise (ValueError "Could not extract song ID from URL")
  | Some g => Py.int g
  end.

(** ** Records of the remote service *)

Record SongRecord : Type := {
  songId : Z;
  artist : string;
  title : string
}.

Record Author : Type := { profileName : string }.

Record RevisionRecord : Type := {
  revisionId : Z;
  createdAt : string;
  author : Author
}.

(** The revision detail, of which the program reads three keys.  [None] is
    an absent key. *)
Record RevisionDetail : Type := {
  detail_source : option string;
  detail_artist : option string;
  detail_title : option string
}.

(** ** The world: console, network and files *)

Inductive event : Type :=
  | Print (text : string)
  | Input (prompt : string)
  | HttpGet (url : string)
  | FileOpen (path : string)
  | FileWrite (path : string) (chunk : string).

Record World : Type := {
  stdin : list string;
  trace : list event
}.

(** What the collaborators answer.  A request is a [requests.get] followed
    by [raise_for_status] and, for the three metadata calls, [json()]; the
    body of a download arrives in chunks and may break off with an error.
    Opening a file for writing may fail; writing to an open file does not. *)
Record Env : Type := {
  meta_json : string -> result (list RevisionRecord);
  search_json : string -> result (list SongRecord);
  revision_json : string -> result RevisionDetail;
  content : string -> result (list string * option exn);
  open_wb : string -> option exn
}.

Definition IO (A : Type) : Type := World -> result A * World.

#[global] Instance IO_ret : MRet IO := fun A a w => (Ok a, w).
#[global] Instance IO_bind : MBind IO := fun A B f m w =>
  match m w with
  | (Ok a, w') => f a w'
  | (Raise e, w') => (Raise e, w')
  end.

Definition raise {A} (e : exn) : IO A := fun w => (Raise e, w).
Definition lift {A} (r : result A) : IO A := fun w => (r, w).

Definition emit (e : event) (w : World) : World :=
  {| stdin := stdin w; trace := trace w ++ [e] |}.

Definition emits (es : list event) (w : World) : World :=
  {| stdin := stdin w; trace := trace w ++ es |}.

Definition print (text : string) : IO unit := fun w => (Ok tt, emit (Print text) w).

(** [input(prompt)]: the prompt is shown, then a line is read; at the end of
    the input an [EOFError]. *)
Definition input (prompt : string) : IO string := fun w =>
  match stdin w with
  | [] => (Raise EOFError, emit (Input prompt) w)
  | line :: rest =>
      (Ok line, {| stdin := rest; trace := trace w ++ [Input prompt] |})
  end.

(** A sequence of [print] calls, one per line. *)
Definition print_lines (lines : list string) : IO unit :=
  fun w => (Ok tt, emits (map Print lines) w).

(** A loop that reads standard input, run from the current world. *)
Definition on_stdin {A} (loop : list string -> list event -> result A * World)
    : IO A :=
  fun w => loop (stdin w) (trace w).

Definition http_get {A} (answer : string -> result A) (url : string) : IO A :=
  fun w => (answer url, emit (HttpGet url) w).

(** ** The program *)

Definition SONGSTERR_META (song_id : Z) : string :=
  "https://www.songsterr.com/api/meta/" +:+ Py.str song_id +:+ "/revisions".
Definition SONGSTERR_REVISION (revision_id : Z) : string :=
  "https://www.songsterr.com/api/revision/" +:+ Py.str revision_id.
Definition SONGSTERR_SEARCH (size : Z) (pattern : string) : string :=
  "https://www.songsterr.com/api/songs?size=" +:+ Py.str size
  +:+ "&pattern=" +:+ pattern.

Definition get_latest_revision_id (revisions : list RevisionRecord) : result Z :=
  Py.max (revisionId <$> revisions).

Definition sanitize_chars : list ascii :=
  ["\"; "/"; ":"; "*"; "?"; Py.chr 34; "<"; ">"; "|"]%char.

Definition is_sanitized_char (c : ascii) : bool :=
  existsb (Ascii.eqb c) sanitize_chars.

Fixpoint sanitize_filename (s : string) : string :=
  match s with
  | EmptyString => EmptyString
  | String c s' =>
      String (if is_sanitized_char c then "_"%char else c) (sanitize_filename s')
  end.

Fixpoint dedupe_loop (items : list string) (seen : gset string)
    (result : list string) : list string :=
  match items with
  | [] => result
  | item :: rest =>
      if decide (item ∈ seen) then dedupe_loop rest seen result
      else dedupe_loop rest ({[item]} ∪ seen) (result ++ [item])
  end.

Definition dedupe_preserve_order (items : list string) : list string :=
  dedupe_loop items ∅ [].

Definition is_url (value : string) : bool :=
  Py.startswith value "http://" || Py.startswith value "https://".

Fixpoint build_song_ids_from_urls (urls : list string) : result (list Z) :=
  match urls with
  | [] => Ok []
  | url :: rest =>
      match extract_song_id url with
      | Raise e => Raise e
      | Ok id =>
          match build_song_ids_from_urls rest with
          | Raise e => Raise e
          | Ok ids => Ok (id :: ids)
          end
      end
  end.

Definition get_revisions (env : Env) (song_id : Z) : IO (list RevisionRecord) :=
  let url := SONGSTERR_META song_id in
  revisions ← http_get (meta_json env) url;
  match revisions with
  | [] => raise (RuntimeError "No revisions returned")
  | _ => mret revisions
  end.

Definition search_songs (env : Env) (pattern : string) (size : Z)
    : IO (list SongRecord) :=
  let url := SONGSTERR_SEARCH size pattern in
  songs ← http_get (search_json env) url;
  match songs with
  | [] => raise (RuntimeError "No songs found for search")
  | _ => mret songs
  end.

(** The lines printed for the candidates, numbered from one. *)
Definition song_lines (songs : list SongRecord) : list string :=
  imap (fun i song =>
          (Py.str (Z.of_nat i + 1) +:+ ") id=" +:+ Py.str (songId song)
                 +:+ " artist=" +:+ artist song +:+ " title=" +:+ title song))
       songs.

Definition revision_lines (revisions : list RevisionRecord) : list string :=
  imap (fun i rev =>
          (Py.str (Z.of_nat i + 1) +:+ ") revisionId="
                 +:+ Py.str (revisionId rev) +:+ " createdAt=" +:+ createdAt rev
                 +:+ " author=" +:+ profileName (author rev)))
       revisions.

(** [l[idx - 1][key]] for a one-based [idx]. *)
Definition item {A} (l : list A) (idx : Z) (key : A -> Z) : result Z :=
  match l !! Z.to_nat (idx - 1) with
  | Some x => Ok (key x)
  | None => Raise IndexError
  end.

(** The [while True] loop of [prompt_song_choice].  Every turn reads one
    line, so the loop is a recursion on the lines left on standard input;
    [tr] is the trace so far. *)
Fixpoint song_choice_loop (songs : list SongRecord) (lines : list string)
    (tr : list event) : result Z * World :=
  match lines with
  | [] =>
      (Raise EOFError,
       {| stdin := []; trace := tr ++ [Input "Choose a song number: "] |})
  | line :: rest =>
      let tr := tr ++ [Input "Choose a song number: "] in
      let choice := Py.strip line in
      if negb (Py.isdigit choice) then
        song_choice_loop songs rest
          (tr ++ [Print "Please enter a number from the list."])
      else
        match Py.int choice with
        | Raise e => (Raise e, {| stdin := rest; trace := tr |})
        | Ok idx =>
            if (1 <=? idx) && (idx <=? Z.of_nat (length songs)) then
              (item songs idx songId, {| stdin := rest; trace := tr |})
            else
              song_choice_loop songs rest
                (tr ++ [Print "Please enter a valid number from the list."])
        end
  end.

Definition prompt_song_choice (songs : list SongRecord) : IO Z :=
  match songs with
  | [song] => mret (songId song)
  | _ =>
      print "Search results:";;
      print_lines (song_lines songs);;
      on_stdin (song_choice_loop songs)
  end.

(** The [while True] loop of [prompt_revision_choice]. *)
Fixpoint revision_choice_loop (revisions : list RevisionRecord)
    (lines : list string) (tr : list event) : result Z * World :=
  match lines with
  | [] =>
      (Raise EOFError,
       {| stdin := [];
          trace := tr ++ [Input "Choose a revision number (Enter for latest): "] |})
  | line :: rest =>
      let tr := tr ++ [Input "Choose a revision number (Enter for latest): "] in
      let choice := Py.strip line in
      if String.eqb choice EmptyString then
        (get_latest_revision_id revisions, {| stdin := rest; trace := tr |})
      else if negb (Py.isdigit choice) then
        revision_choice_loop revisions rest
          (tr ++ [Print "Please enter a number from the list."])
      else
        match Py.int choice with
        | Raise e => (Raise e, {| stdin := rest; trace := tr |})
        | Ok idx =>
            if (1 <=? idx) && (idx <=? Z.of_nat (length revisions)) then
              (item revisions idx revisionId, {| stdin := rest; trace := tr |})
            else
              revision_choice_loop revisions rest
                (tr ++ [Print "Please enter a valid number from the list."])
        end
  end.

Definition prompt_revision_choice (revisions : list RevisionRecord) : IO Z :=
  match revisions with
  | [rev] => mret (revisionId rev)
  | _ =>
      print "Available revisions:";;
      print_lines (revision_lines revisions);;
      on_stdin (revision_choice_loop revisions)
  end.

Definition prompt_search_text : IO string :=
  line ← input "Search text: ";
  let search_text := Py.strip line in
  if String.eqb search_text EmptyString
  then raise (RuntimeError "Search text cannot be empty")
  else mret search_text.

Definition choose_song_id (env : Env) (search_text : string) (max_results : Z)
    : IO Z :=
  songs ← search_songs env search_text max_results;
  prompt_song_choice songs.

Definition resolve_song_ids (env : Env) (urls : list string)
    (interactive : bool) (max_results : Z) : IO (list Z) :=
  if interactive then
    match urls with
    | _ :: _ =>
        if forallb is_url urls then lift (build_song_ids_from_urls urls)
        else
          let search_text := Py.strip (Py.join " " urls) in
          if String.eqb search_text EmptyString
          then raise (RuntimeError "Search text cannot be empty")
          else id ← choose_song_id env search_text max_results; mret [id]
    | [] =>
        search_text ← prompt_search_text;
        id ← choose_song_id env search_text max_results;
        mret [id]
    end
  else
    match urls with
    | [] => raise (RuntimeError "No URLs or search selection provided")
    | _ => lift (build_song_ids_from_urls urls)
    end.

(** [for x in l: body(x)] *)
Fixpoint for_each {A} (l : list A) (body : A -> IO unit) : IO unit :=
  match l with
  | [] => mret tt
  | x :: rest => body x;; for_each rest body
  end.

(** The revision selection of [main]: the prompt in interactive mode, the
    latest revision otherwise. *)
Definition select_revision (interactive : bool)
    (revisions : list RevisionRecord) : IO Z :=
  if interactive then
    revision_id ← prompt_revision_choice revisions;
    print ("Selected revision ID: " +:+ Py.str revision_id);;
    mret revision_id
  else
    revision_id ← lift (get_latest_revision_id revisions);
    print ("Latest revision ID: " +:+ Py.str revision_id);;
    mret revision_id.

Section Download.

(** [urlparse(url).path] of [urllib.parse]; it may raise a [ValueError]. *)
Variable urlparse_path : string -> result string.

(** The file name [download_gp_file] builds from the revision detail and
    its source URL. *)
Definition output_filename (data : RevisionDetail) (source_url : string)
    : result string :=
  let artist := sanitize_filename (default "Unknown Artist" (detail_artist data)) in
  let title := sanitize_filename (default "Unknown Title" (detail_title data)) in
  match urlparse_path source_url with
  | Raise e => Raise e
  | Ok path =>
      let ext := snd (Py.splitext path) in
      let ext := if String.eqb ext EmptyString then ".gp" else ext in
      Ok (artist +:+ " - " +:+ title +:+ ext)
  end.

(** The body of the [with open(...)] block: every non-empty chunk is
    written, then the error that ended the stream, if any, is raised. *)
Definition save_chunks (out_path : string) (chunks : list string)
    (broken : option exn) : IO unit :=
  fun w =>
    let w := emits (map (FileWrite out_path)
                      (filter (fun chunk => chunk ≠ EmptyString) chunks)) w in
    match broken with
    | Some e => (Raise e, w)
    | None => (Ok tt, w)
    end.

Definition open_file (env : Env) (out_path : string) : IO unit :=
  fun w =>
    match open_wb env out_path with
    | Some e => (Raise e, w)
    | None => (Ok tt, emit (FileOpen out_path) w)
    end.

Definition download_gp_file (env : Env) (revision_id : Z) (out_dir : string)
    : IO unit :=
  let url := SONGSTERR_REVISION revision_id in
  data ← http_get (revision_json env) url;
  match detail_source data with
  | None | Some EmptyString =>
      raise (RuntimeError "No GP export URL found in revision data")
  | Some source_url =>
      filename ← lift (output_filename data source_url);
      let out_path := Py.path_join out_dir filename in
      print ("Downloading: " +:+ source_url);;
      '(chunks, broken) ← http_get (content env) source_url;
      open_file env out_path;;
      save_chunks out_path chunks broken;;
      print ("Saved as: " +:+ out_path)
  end.

(** The part of [main] after the references are collected. *)
Definition main_body (env : Env) (urls : list string) (interactive : bool)
    (max_results : Z) (out : string) : IO unit :=
  let urls := dedupe_preserve_order urls in
  song_ids ← resolve_song_ids env urls interactive max_results;
  for_each song_ids (fun song_id =>
    print ("Song ID: " +:+ Py.str song_id);;
    revisions ← get_revisions env song_id;
    revision_id ← select_revision interactive revisions;
    download_gp_file env revision_id out).

End Download.

(** A path component for the examples: what follows the authority of a
    reference of the form [scheme://authority/path?query#fragment], or the
    whole of a reference without authority, up to the query or the
    fragment. *)
Module Example.

Fixpoint until_any (stops : list ascii) (s : string) : string * string :=
  match s with
  | EmptyString => (EmptyString, EmptyString)
  | String c s' =>
      if existsb (Ascii.eqb c) stops then (EmptyString, s)
      else let '(a, b) := until_any stops s' in (String c a, b)
  end.

Fixpoint after_authority (s : string) : option string :=
  match s with
  | String ":" (String "/" (String "/" rest)) =>
      Some (snd (until_any ["/"; "?"; "#"]%char rest))
  | String _ s' => after_authority s'
  | EmptyString => None
  end.

Definition url_path (url : string) : result string :=
  Ok (fst (until_any ["?"; "#"]%char (default url (after_authority url)))).

Definition quiet : World := {| stdin := []; trace := [] |}.

Definition typing (lines : list string) : World :=
  {| stdin := lines; trace := [] |}.

Definition rev (id : Z) (created : string) (who : string) : RevisionRecord :=
  {| revisionId := id; createdAt := created;
     author := {| profileName := who |} |}.

Definition song (id : Z) (a t : string) : SongRecord :=
  {| songId := id; artist := a; title := t |}.

(** A service that knows two songs, whatever the query. *)
Definition env : Env :=
  {| meta_json := fun _ => Ok [rev 5 "2020" "ann"; rev 9 "2019" "bob"];
     search_json := fun _ => Ok [song 11 "AC/DC" "T.N.T."; song 12 "AC/DC" "Thunderstruck"];
     revision_json := fun _ =>
       Ok {| detail_source := Some "https://gp.example.org/d/file.gp5?x=1";
             detail_artist := Some "AC/DC";
             detail_title := Some "T.N.T." |};
     content := fun _ => Ok (["abc"; EmptyString; "de"], None);
     open_wb := fun _ => None |}.

End Example.


(** ** What the specification calls a match of the pattern

    These definitions follow the words of the specification; the theorems
    compare them with the functions above. *)

(** A run of one or more decimal digits. *)
Definition digit_run (ds : string) : Prop :=
  ds ≠ EmptyString ∧ Py.all_chars Py.is_decimal ds = true.

(** The integer a digit run denotes in base ten. *)
Definition denoted (ds : string) : Z := Py.int_digits 0 ds.





(** [c] does not occur in [s]. *)
Definition lacks (c : ascii) (s : string) : Prop :=
  Py.all_chars (λ x, negb (Ascii.eqb x c)) s = true.

(** What the user types at a prompt, up to surrounding white space: nothing,
    or the decimal digits of [k]. *)
Definition blank_entry (line : string) : Prop :=
  Py.strip line = EmptyString.

Definition numeric_entry (line : string) (k : Z) : Prop :=
  digit_run (Py.strip line) ∧ denoted (Py.strip line) = k.

(** ** Reading references *)

Section Files.

(** [open(path, "r", encoding="utf-8").read()]: the text of the file, or
    the error of opening or decoding it. *)
Variable open_read : string -> result string.

(** [sys.stdin.read()]: all the lines left on standard input, each with its
    line feed. *)
Definition stdin_read : IO string := fun w =>
  (Ok (String.concat EmptyString
         (map (fun line => line +:+ String (Py.chr 10) EmptyString) (stdin w))),
   {| stdin := []; trace := trace w |}).

(** The loop of [load_urls_from_file] over the lines. *)
Fixpoint load_loop (lines : list string) (urls : list string) : list string :=
  match lines with
  | [] => urls
  | line :: rest =>
      let line := Py.strip line in
      if String.eqb line EmptyString || Py.startswith line "#"
      then load_loop rest urls
      else load_loop rest (urls ++ [line])
  end.

Definition load_urls_from_file (path : string) : IO (list string) :=
  text ← (if String.eqb path "-" then stdin_read else lift (open_read path));
  mret (load_loop (Py.splitlines text) []).

End Files.

(** ** The command *)

(** The parsed command line. *)
Record Args : Type := {
  args_url : list string;
  args_out : string;
  args_file : option string;
  args_interactive : bool;
  args_max_results : Z
}.

(** The body of the [for] loop of [main]. *)
Definition process_song (urlparse_path : string -> result string) (env : Env)
    (interactive : bool) (out : string) (song_id : Z) : IO unit :=
  print ("Song ID: " +:+ Py.str song_id);;
  revisions ← get_revisions env song_id;
  revision_id ← select_revision interactive revisions;
  download_gp_file urlparse_path env revision_id out.

Section Main.

Variable urlparse_path : string -> result string.
Variable open_read : string -> result string.

(** [os.makedirs(path, exist_ok=True)]: the error, if it fails. *)
Variable makedirs : string -> option exn.

(** [sys.stdin.isatty()] *)
Variable isatty : bool.

(** The references [main] collects before it removes the duplicates. *)
Definition collect_urls (args : Args) : IO (list string) :=
  let urls := args_url args in
  match args_file args with
  | Some (String _ _ as file) =>
      more ← load_urls_from_file open_read file; mret (urls ++ more)
  | _ =>
      if bool_decide (urls = []) && negb isatty && negb (args_interactive args)
      then more ← load_urls_from_file open_read "-"; mret (urls ++ more)
      else mret urls
  end.

(** The [try] block of [main]. *)
Definition main_try (env : Env) (args : Args) : IO unit :=
  (fun w => match makedirs (args_out args) with
            | Some e => (Raise e, w)
            | None => (Ok tt, w)
            end);;
  urls ← collect_urls args;
  main_body urlparse_path env urls (args_interactive args)
    (args_max_results args) (args_out args).

(** [main]: the exit status and the world it leaves.  An exception is
    reported on standard error, which the world does not record, and the
    status is 1. *)
Definition main (env : Env) (args : Args) (w : World) : Z * World :=
  match main_try env args w with
  | (Ok _, w') => (0, w')
  | (Raise _, w') => (1, w')
  end.

End Main.

(** ** Observations on a run *)

(** What an action adds to the trace, whatever the world it starts in. *)
Definition added {A} (m : IO A) (w : World) (evs : list event) : Prop :=
  trace (snd (m w)) = trace w ++ evs.

(** An action that adds only events with the property [P]. *)
Definition adds_only (P : event -> Prop) {A} (m : IO A) : Prop :=
  ∀ w, ∃ evs, added m w evs ∧ Forall P evs.

(** An action that leaves standard input alone. *)
Definition keeps_stdin {A} (m : IO A) : Prop :=
  ∀ w, stdin (snd (m w)) = stdin w.

Definition is_prompt (e : event) : Prop :=
  match e with
  | Input _ => True
  | _ => False
  end.

(** [path] names a file directly in the directory [out_dir]: the directory,
    a slash unless the directory ends with one or is the current one, and a
    name without slash. *)
Definition in_directory (out_dir path : string) : Prop :=
  ∃ name, name ≠ EmptyString ∧ lacks "/" name
          ∧ path = out_dir
                   +:+ (if String.eqb out_dir EmptyString
                           || Py.endswith_char out_dir "/"
                        then EmptyString else "/")
                   +:+ name.


(** What a prompt answers to a line that selects nothing among [n] items:
    the complaint it prints before it asks again. *)
Definition complaint (n : nat) (line : string) : option string :=
  let choice := Py.strip line in
  if negb (Py.isdigit choice) then Some "Please enter a number from the list."
  else
    match Py.int choice with
    | Raise _ => None
    | Ok idx =>
        if (1 <=? idx) && (idx <=? Z.of_nat n) then None
        else Some "Please enter a valid number from the list."
    end.


(** A line that [load_urls_from_file] keeps, once stripped: not blank and
    not a comment. *)
Definition is_reference (line : string) : bool :=
  negb (String.eqb line EmptyString || Py.startswith line "#").

(** A string without line boundary. *)
Definition one_line (s : string) : Prop :=
  Py.all_chars (λ c, negb (Py.is_linebreak c)) s = true.

(** A text, from its lines: each line with a line feed after it. *)
Definition text_of_lines (lines : list string) : string :=
  String.concat EmptyString
    (map (fun line => line +:+ String (Py.chr 10) EmptyString) lines).


(** ** Strings *)

Lemma append_nil_r (s : string) : s +:+ EmptyString = s.
Proof. induction s; simpl; congruence. Qed.

Lemma append_assoc (a b c : string) : (a +:+ b) +:+ c = a +:+ (b +:+ c).
Proof. induction a; simpl; congruence. Qed.

Lemma all_chars_app p (a b : string) :
  Py.all_chars p (a +:+ b) = Py.all_chars p a && Py.all_chars p b.
Proof.
  induction a as [|c a IH]; simpl; [done|].
  rewrite IH. by rewrite andb_assoc.
Qed.

(** ** The pattern search *)
















Lemma int_digit_run (ds : string) : digit_run ds → Py.int ds = Ok (denoted ds).
Proof.
  intros [Hne Hall]. unfold Py.int. rewrite Hall. by destruct ds.
Qed.

(** ** Decimal notation

    [int] reads what [str] writes: the digits of a number denote it. *)

Lemma int_digits_of_uint_acc (d : Decimal.uint) (acc : positive) :
  Py.int_digits (Z.pos acc) (NilEmpty.string_of_uint d)
  = Z.pos (Pos.of_uint_acc d acc).
Proof.
  revert acc. induction d as [|d IH|d IH|d IH|d IH|d IH|d IH|d IH|d IH|d IH|d IH];
    intros acc; [done|..];
    cbn [NilEmpty.string_of_uint Py.int_digits Pos.of_uint_acc];
    rewrite <- IH; f_equal;
    match goal with
    | |- context [Py.digit_value ?c] =>
        let v := eval vm_compute in (Py.digit_value c) in
        change (Py.digit_value c) with v
    end; lia.
Qed.

Lemma int_digits_of_uint (d : Decimal.uint) :
  Py.int_digits 0 (NilEmpty.string_of_uint d) = Z.of_N (Pos.of_uint d).
Proof.
  induction d as [|d IH|d IH|d IH|d IH|d IH|d IH|d IH|d IH|d IH|d IH];
    [done|exact IH|..];
    cbn [NilEmpty.string_of_uint Py.int_digits Pos.of_uint Z.of_N];
    rewrite <- int_digits_of_uint_acc; f_equal.
Qed.

Lemma all_decimal_of_uint (d : Decimal.uint) :
  Py.all_chars Py.is_decimal (NilEmpty.string_of_uint d) = true.
Proof. induction d; simpl; done. Qed.

Lemma str_digit_run (n : Z) :
  0 ≤ n → digit_run (Py.str n) ∧ denoted (Py.str n) = n.
Proof.
  intros Hn. destruct n as [|p|p]; [by repeat split|  |lia].
  unfold Py.str, denoted. cbn [Z.to_int NilZero.string_of_int].
  pose proof (Unsigned.to_uint_nonnil p) as Hnil.
  pose proof (Unsigned.of_to p) as Hto.
  destruct (Pos.to_uint p) as [|d|d|d|d|d|d|d|d|d|d] eqn:Hd; [done|..];
    (split; [split; [done|apply all_decimal_of_uint]|]);
    unfold NilZero.string_of_uint; rewrite int_digits_of_uint, Hto; done.
Qed.

Lemma is_decimal_not_space (c : ascii) :
  Py.is_decimal c = true → Py.char_isspace c = false.
Proof.
  unfold Py.is_decimal, Py.char_isspace.
  intros [H1%Nat.leb_le H2%Nat.leb_le]%andb_true_iff.
  repeat match goal with
         | |- context [(?a <=? ?b)%nat] => destruct (Nat.leb_spec a b)
         | |- context [(?a =? ?b)%nat] => destruct (Nat.eqb_spec a b)
         end; simpl; try done; lia.
Qed.

Lemma rstrip_decimal (s : string) :
  Py.all_chars Py.is_decimal s = true → Py.rstrip s = s.
Proof.
  induction s as [|c s IH]; simpl; [done|].
  intros [Hc Hs]%andb_true_iff. rewrite (IH Hs).
  destruct s; [|done]. by rewrite (is_decimal_not_space _ Hc).
Qed.

Lemma strip_digit_run (s : string) : digit_run s → Py.strip s = s.
Proof.
  intros [Hne Hall]. unfold Py.strip.
  destruct s as [|c s]; [done|]. simpl in Hall |- *.
  pose proof Hall as [Hc _]%andb_true_iff.
  rewrite (is_decimal_not_space _ Hc). apply rstrip_decimal. by simpl.
Qed.

(** Typing a number is a numeric entry for it. *)
Lemma numeric_entry_str (k : Z) : 0 ≤ k → numeric_entry (Py.str k) k.
Proof.
  intros Hk. destruct (str_digit_run k Hk) as [Hrun Hden].
  unfold numeric_entry. by rewrite (strip_digit_run _ Hrun).
Qed.

(** ** C2: identifier extraction *)



Example extract_song_id_url :
  extract_song_id "https://www.songsterr.com/a/wsa/pissgrave-rusted-wind-tab-s505453"
  = Ok 505453.
Proof. reflexivity. Qed.

(** The leftmost occurrence decides, and its digits are taken to the end. *)
Example extract_song_id_leftmost : extract_song_id "a-s-s12x-s4" = Ok 12.
Proof. reflexivity. Qed.

(** ** C1: the latest revision *)

Lemma fold_max_spec (xs : list Z) (x : Z) :
  let m := fold_left (fun m y => if m <? y then y else m) xs x in
  (m = x ∨ m ∈ xs) ∧ x ≤ m ∧ ∀ y, y ∈ xs → y ≤ m.
Proof.
  revert x. induction xs as [|a xs IH]; intros x; simpl.
  - split; [by left|split; [lia|]]. intros y Hy. by apply elem_of_nil in Hy.
  - destruct (IH (if x <? a then a else x)) as (Hin & Hle & Hall).
    destruct (Z.ltb_spec x a) as [Hlt|Hge].
    + split; [right; destruct Hin as [->|?]; [left|by right]|].
      split; [lia|]. intros y [->|Hy]%elem_of_cons; [done|by apply Hall].
    + split; [destruct Hin as [->|?]; [by left|right; by right]|].
      split; [done|]. intros y [->|Hy]%elem_of_cons; [lia|by apply Hall].
Qed.

Lemma py_max_spec (l : list Z) (m : Z) :
  Py.max l = Ok m ↔ m ∈ l ∧ ∀ y, y ∈ l → y ≤ m.
Proof.
  destruct l as [|x xs]; simpl.
  - split; [done|]. intros [H _]. by apply elem_of_nil in H.
  - pose proof (fold_max_spec xs x) as (Hin & Hle & Hall). simpl in *.
    set (m' := fold_left _ xs x) in *. split.
    + intros [= <-]. split.
      * destruct Hin as [->|?]; [left|by right].
      * intros y [->|Hy]%elem_of_cons; [done|by apply Hall].
    + intros [Hm Hmax]. f_equal.
      assert (m' ∈ x :: xs) as Hm'
        by (destruct Hin as [->|?]; [left|by right]).
      apply Hmax in Hm'.
      assert (m ≤ m') by (apply elem_of_cons in Hm as [->|?]; [done|by apply Hall]).
      lia.
Qed.

Lemma py_max_nonempty (l : list Z) : l ≠ [] → ∃ m, Py.max l = Ok m.
Proof. destruct l; [done|]. simpl. eauto. Qed.

(** C1.  On a non-empty list the latest revision is the maximum of the
    revision identifiers: it is the identifier of a listed revision and no
    listed identifier is greater.  Any list with the same identifiers, in
    any order and with any creation dates, has the same latest revision,
    and batch mode selects it. *)
Theorem get_latest_revision_id_max (revisions : list RevisionRecord) :
  revisions ≠ [] →
  ∃ m, get_latest_revision_id revisions = Ok m
       ∧ (∃ r, r ∈ revisions ∧ revisionId r = m)
       ∧ (∀ r, r ∈ revisions → revisionId r ≤ m)
       ∧ (∀ revisions',
            revisionId <$> revisions' ≡ₚ revisionId <$> revisions →
            get_latest_revision_id revisions' = Ok m)
       ∧ (∀ w, select_revision false revisions w
               = (Ok m, emit (Print ("Latest revision ID: " +:+ Py.str m)) w)).
Proof.
  intros Hne. unfold get_latest_revision_id.
  destruct (py_max_nonempty (revisionId <$> revisions)) as [m Hm].
  { by destruct revisions. }
  exists m. split; [done|].
  pose proof Hm as [Hin Hmax]%py_max_spec.
  split; [|split; [|split]].
  - apply list_elem_of_fmap in Hin as (r & -> & Hr). by exists r.
  - intros r Hr. apply Hmax. apply list_elem_of_fmap. by exists r.
  - intros revisions' Hperm. apply py_max_spec. split.
    + by rewrite Hperm.
    + intros y Hy. apply Hmax. by rewrite <- Hperm.
  - intros w. unfold select_revision, get_latest_revision_id, lift, mbind,
      IO_bind, print, mret, IO_ret. by rewrite Hm.
Qed.

(** The example of the specification: the identifiers and the dates
    disagree, and the identifier decides. *)
Lemma get_latest_revision_id_max_witness :
  ∃ m, get_latest_revision_id [Example.rev 5 "2020" "ann"; Example.rev 9 "2019" "bob"]
       = Ok m
       ∧ (∃ r, r ∈ [Example.rev 5 "2020" "ann"; Example.rev 9 "2019" "bob"]
               ∧ revisionId r = m)
       ∧ (∀ r, r ∈ [Example.rev 5 "2020" "ann"; Example.rev 9 "2019" "bob"]
               → revisionId r ≤ m)
       ∧ (∀ revisions',
            revisionId <$> revisions'
            ≡ₚ revisionId <$> [Example.rev 5 "2020" "ann"; Example.rev 9 "2019" "bob"] →
            get_latest_revision_id revisions' = Ok m)
       ∧ (∀ w, select_revision false
                 [Example.rev 5 "2020" "ann"; Example.rev 9 "2019" "bob"] w
               = (Ok m, emit (Print ("Latest revision ID: " +:+ Py.str m)) w)).
Proof. apply get_latest_revision_id_max. discriminate. Defined.

Example get_latest_revision_id_dates :
  get_latest_revision_id [Example.rev 5 "2020" "ann"; Example.rev 9 "2019" "bob"]
  = Ok 9
  ∧ get_latest_revision_id [Example.rev 9 "2019" "bob"; Example.rev 5 "2020" "ann"]
    = Ok 9.
Proof. split; reflexivity. Qed.

(** ** C4: file name sanitizing *)

Lemma is_sanitized_char_spec (c : ascii) :
  is_sanitized_char c = true ↔ c ∈ sanitize_chars.
Proof.
  unfold is_sanitized_char. rewrite existsb_exists, list_elem_of_In.
  split.
  - intros (x & Hx & Heq). by apply Ascii.eqb_eq in Heq as ->.
  - intros Hc. exists c. split; [done|]. apply Ascii.eqb_refl.
Qed.

Lemma underscore_kept : is_sanitized_char "_" = false.
Proof. reflexivity. Qed.

(** C4.  [sanitize_filename] keeps the length of the string; at every
    position it puts an underscore for one of the nine characters,
    which are the double quote and [\ / : * ? < > |], and keeps any other
    character; sanitizing a sanitized string changes nothing. *)
Theorem sanitize_filename_spec (s : string) :
  sanitize_chars = Py.chr <$> [92; 47; 58; 42; 63; 34; 60; 62; 124]%nat
  ∧ String.length (sanitize_filename s) = String.length s
  ∧ (∀ i c, String.get i s = Some c →
       (c ∈ sanitize_chars → String.get i (sanitize_filename s) = Some "_"%char)
       ∧ (c ∉ sanitize_chars → String.get i (sanitize_filename s) = Some c))
  ∧ sanitize_filename (sanitize_filename s) = sanitize_filename s.
Proof.
  split; [reflexivity|]. split; [|split].
  - induction s as [|c s IH]; simpl; congruence.
  - induction s as [|c s IH]; intros i x Hget; [done|].
    destruct i as [|i]; simpl in *.
    + injection Hget as ->. split; intros Hx.
      * apply is_sanitized_char_spec in Hx. by rewrite Hx.
      * destruct (is_sanitized_char x) eqn:E; [|done].
        by apply is_sanitized_char_spec in E.
    + by apply IH.
  - induction s as [|c s IH]; simpl; [done|]. rewrite IH. f_equal.
    destruct (is_sanitized_char c) eqn:E; [|by rewrite E].
    by rewrite underscore_kept.
Qed.

Example sanitize_filename_all :
  sanitize_filename ("a\b/c:d*e?f" +:+ String (Py.chr 34) "g<h>i|j._- ")
  = "a_b_c_d_e_f_g_h_i_j._- ".
Proof. reflexivity. Qed.

(** ** C6: deduplication *)

Lemma dedupe_loop_result (items : list string) (seen : gset string)
    (result : list string) :
  dedupe_loop items seen result = result ++ dedupe_loop items seen [].
Proof.
  revert seen result. induction items as [|x items IH]; intros seen result; simpl.
  - by rewrite app_nil_r.
  - destruct (decide (x ∈ seen)); [done|].
    rewrite (IH _ (result ++ [x])), (IH _ [x]). by rewrite <- app_assoc.
Qed.

Lemma dedupe_loop_fresh (items : list string) (seen : gset string) (x : string) :
  x ∈ seen → x ∉ dedupe_loop items seen [].
Proof.
  revert seen. induction items as [|y items IH]; intros seen Hx; simpl.
  - apply not_elem_of_nil.
  - destruct (decide (y ∈ seen)); [by apply IH|].
    rewrite dedupe_loop_result. simpl.
    apply not_elem_of_cons. split; [set_solver|]. apply IH. set_solver.
Qed.

Lemma dedupe_loop_seen (items : list string) (seen : gset string) (x : string) :
  dedupe_loop items ({[x]} ∪ seen) []
  = filter (λ y, y ≠ x) (dedupe_loop items seen []).
Proof.
  revert seen. induction items as [|y items IH]; intros seen; simpl; [done|].
  destruct (decide (y ∈ seen)) as [Hy|Hy].
  - rewrite decide_True by set_solver. apply IH.
  - rewrite !(dedupe_loop_result _ _ [y]). simpl.
    destruct (decide (y = x)) as [->|Hne].
    + rewrite decide_True by set_solver.
      rewrite filter_cons_False by naive_solver.
      rewrite <- IH. f_equal. set_solver.
    + rewrite decide_False by set_solver.
      rewrite filter_cons_True by done. f_equal.
      rewrite <- IH. f_equal. set_solver.
Qed.

Lemma dedupe_cons (x : string) (items : list string) :
  dedupe_preserve_order (x :: items)
  = x :: filter (λ y, y ≠ x) (dedupe_preserve_order items).
Proof.
  unfold dedupe_preserve_order. simpl.
  rewrite decide_False by set_solver.
  rewrite dedupe_loop_result. simpl. f_equal.
  rewrite <- dedupe_loop_seen. f_equal.
Qed.

(** C6.  The output of [dedupe_preserve_order] has no duplicates, has the
    elements of the input, and is the input with elements left out, so in
    the input's order.  The first occurrence is the one kept: the head of
    the input is the head of the output, and only its later copies are
    dropped from the rest.  On [a, b, a, c, b] the output is [a, b, c]. *)
Theorem dedupe_preserve_order_spec (items : list string) :
  NoDup (dedupe_preserve_order items)
  ∧ (∀ x, x ∈ dedupe_preserve_order items ↔ x ∈ items)
  ∧ sublist (dedupe_preserve_order items) items
  ∧ (∀ x rest, items = x :: rest →
       dedupe_preserve_order items
       = x :: filter (λ y, y ≠ x) (dedupe_preserve_order rest))
  ∧ (∀ a b c, a ≠ b → a ≠ c → b ≠ c →
       dedupe_preserve_order [a; b; a; c; b] = [a; b; c]).
Proof.
  split; [|split; [|split; [|split]]].
  - induction items as [|x items IH]; [constructor|].
    rewrite dedupe_cons. constructor.
    + rewrite list_elem_of_filter. naive_solver.
    + by apply NoDup_filter.
  - induction items as [|x items IH]; intros y; [done|].
    rewrite dedupe_cons, !elem_of_cons, list_elem_of_filter, IH.
    destruct (decide (y = x)); naive_solver.
  - induction items as [|x items IH]; [constructor|].
    rewrite dedupe_cons. apply sublist_skip.
    etrans; [apply sublist_filter|exact IH].
  - intros x rest ->. apply dedupe_cons.
  - intros a b c Hab Hac Hbc. rewrite !dedupe_cons.
    change (dedupe_preserve_order []) with (@nil string).
    repeat (rewrite ?filter_nil;
            first [rewrite filter_cons_True by congruence
                  |rewrite filter_cons_False by naive_solver]).
    by rewrite ?filter_nil.
Qed.

Lemma dedupe_preserve_order_spec_witness :
  dedupe_preserve_order ["a"; "b"; "a"; "c"; "b"] = ["a"; "b"; "c"]
  ∧ dedupe_preserve_order ["u2"; "u1"; "u2"]
    = "u2" :: filter (λ y, y ≠ "u2") (dedupe_preserve_order ["u1"; "u2"]).
Proof.
  split.
  - apply (proj2 (proj2 (proj2 (proj2 (dedupe_preserve_order_spec [])))));
      discriminate.
  - apply (proj1 (proj2 (proj2 (proj2 (dedupe_preserve_order_spec _))))).
    reflexivity.
Defined.

(** ** C9: no input in batch mode *)

(** C9.  Without references, batch mode fails with the no-input error: no
    identifier is returned, nothing is read, printed or requested. *)
Theorem resolve_song_ids_no_input (env : Env) (max_results : Z) (w : World) :
  resolve_song_ids env [] false max_results w = (Raise NoInputError, w).
Proof. reflexivity. Qed.

(** ** Choosing at a prompt *)

Lemma is_decimal_isdigit (c : ascii) :
  Py.is_decimal c = true → Py.char_isdigit c = true.
Proof. unfold Py.char_isdigit. by intros ->. Qed.

Lemma digit_run_isdigit (s : string) : digit_run s → Py.isdigit s = true.
Proof.
  intros [Hne Hall]. destruct s as [|c s]; [done|].
  unfold Py.isdigit. revert Hall. generalize (String c s). clear.
  induction s as [|c s IH]; simpl; [done|].
  intros [Hc Hs]%andb_true_iff. by rewrite (is_decimal_isdigit _ Hc), IH.
Qed.

Lemma digit_run_not_blank (s : string) :
  digit_run s → String.eqb s EmptyString = false.
Proof. intros [Hne _]. by destruct s. Qed.

Lemma item_in_range {A} (l : list A) (k : Z) (key : A → Z) :
  1 ≤ k ≤ Z.of_nat (length l) →
  ∃ x, l !! Z.to_nat (k - 1) = Some x ∧ item l k key = Ok (key x).
Proof.
  intros Hk. destruct (lookup_lt_is_Some_2 l (Z.to_nat (k - 1))) as [x Hx]; [lia|].
  exists x. split; [done|]. unfold item. by rewrite Hx.
Qed.

Lemma revision_choice_loop_blank revisions line rest tr :
  blank_entry line →
  revision_choice_loop revisions (line :: rest) tr
  = (get_latest_revision_id revisions,
     {| stdin := rest;
        trace := tr ++ [Input "Choose a revision number (Enter for latest): "] |}).
Proof. unfold blank_entry. intros Hb. simpl. by rewrite Hb. Qed.

Lemma revision_choice_loop_numeric revisions line rest tr k :
  numeric_entry line k → 1 ≤ k ≤ Z.of_nat (length revisions) →
  revision_choice_loop revisions (line :: rest) tr
  = (item revisions k revisionId,
     {| stdin := rest;
        trace := tr ++ [Input "Choose a revision number (Enter for latest): "] |}).
Proof.
  intros [Hrun Hk] Hrange. simpl.
  rewrite (digit_run_not_blank _ Hrun), (digit_run_isdigit _ Hrun),
    (int_digit_run _ Hrun), Hk. simpl.
  destruct (Z.leb_spec 1 k); [|lia].
  destruct (Z.leb_spec k (Z.of_nat (length revisions))); [|lia]. done.
Qed.

Lemma song_choice_loop_numeric songs line rest tr k :
  numeric_entry line k → 1 ≤ k ≤ Z.of_nat (length songs) →
  song_choice_loop songs (line :: rest) tr
  = (item songs k songId,
     {| stdin := rest; trace := tr ++ [Input "Choose a song number: "] |}).
Proof.
  intros [Hrun Hk] Hrange. simpl.
  rewrite (digit_run_isdigit _ Hrun), (int_digit_run _ Hrun), Hk. simpl.
  destruct (Z.leb_spec 1 k); [|lia].
  destruct (Z.leb_spec k (Z.of_nat (length songs))); [|lia]. done.
Qed.

(** ** C8: the revision prompt *)

(** C8.  In interactive mode a list of one revision is selected as it is:
    nothing is printed and nothing is read.  With two or more revisions the
    list is shown and one line is read.  A blank line selects the latest
    revision, the maximum of the revision identifiers; the digits of a
    number [k] between 1 and the length of the list select the identifier
    of the [k]-th revision listed. *)
Theorem prompt_revision_choice_spec (revisions : list RevisionRecord)
    (line : string) (rest : list string) (tr : list event) :
  let w := {| stdin := line :: rest; trace := tr |} in
  let w' :=
    {| stdin := rest;
       trace := tr ++ [Print "Available revisions:"]
                ++ (Print <$> revision_lines revisions)
                ++ [Input "Choose a revision number (Enter for latest): "] |} in
  (∀ rev, revisions = [rev] →
     prompt_revision_choice revisions w = (Ok (revisionId rev), w)
     ∧ select_revision true revisions w
       = (Ok (revisionId rev),
          emit (Print ("Selected revision ID: " +:+ Py.str (revisionId rev))) w))
  ∧ ((2 ≤ length revisions)%nat → blank_entry line →
       ∃ m, prompt_revision_choice revisions w = (Ok m, w')
            ∧ get_latest_revision_id revisions = Ok m
            ∧ (∃ rev, rev ∈ revisions ∧ revisionId rev = m)
            ∧ (∀ rev, rev ∈ revisions → revisionId rev ≤ m))
  ∧ (∀ k, (2 ≤ length revisions)%nat → numeric_entry line k →
       1 ≤ k ≤ Z.of_nat (length revisions) →
       ∃ rev, revisions !! Z.to_nat (k - 1) = Some rev
              ∧ prompt_revision_choice revisions w = (Ok (revisionId rev), w')).
Proof.
  intros w w'. split; [|split].
  - by intros rev ->.
  - intros Hlen Hblank.
    destruct (py_max_nonempty (revisionId <$> revisions)) as [m Hm].
    { destruct revisions; [simpl in Hlen; lia|done]. }
    exists m. split; [|split; [done|]].
    + destruct revisions as [|r1 [|r2 rs]]; simpl in Hlen; [lia|lia|].
      unfold prompt_revision_choice, mbind, IO_bind, print, print_lines,
        on_stdin, emits, emit. cbn [trace stdin w].
      rewrite (revision_choice_loop_blank _ _ _ _ Hblank).
      unfold get_latest_revision_id in *. rewrite Hm. unfold w'.
      by rewrite <- !app_assoc.
    + apply py_max_spec in Hm as [Hin Hmax]. split.
      * apply list_elem_of_fmap in Hin as (r & -> & Hr). by exists r.
      * intros r Hr. apply Hmax. apply list_elem_of_fmap. by exists r.
  - intros k Hlen Hentry Hk.
    destruct (item_in_range revisions k revisionId Hk) as (rev & Hrev & Hitem).
    exists rev. split; [done|].
    destruct revisions as [|r1 [|r2 rs]]; simpl in Hlen; [lia|lia|].
    unfold prompt_revision_choice, mbind, IO_bind, print, print_lines,
      on_stdin, emits, emit. cbn [trace stdin w].
    rewrite (revision_choice_loop_numeric _ _ _ _ _ Hentry Hk), Hitem.
    unfold w'. by rewrite <- !app_assoc.
Qed.

Lemma prompt_revision_choice_spec_witness :
  prompt_revision_choice [Example.rev 5 "2020" "ann"] (Example.typing ["7"])
  = (Ok 5, Example.typing ["7"])
  ∧ (∃ m, prompt_revision_choice
            [Example.rev 5 "2020" "ann"; Example.rev 9 "2019" "bob"]
            (Example.typing [" "; "1"])
          = (Ok m,
             {| stdin := ["1"];
                trace := [Print "Available revisions:";
                          Print "1) revisionId=5 createdAt=2020 author=ann";
                          Print "2) revisionId=9 createdAt=2019 author=bob";
                          Input "Choose a revision number (Enter for latest): "] |})
          ∧ get_latest_revision_id
              [Example.rev 5 "2020" "ann"; Example.rev 9 "2019" "bob"] = Ok m)
  ∧ (∃ rev, [Example.rev 5 "2020" "ann"; Example.rev 9 "2019" "bob"] !! 0%nat
            = Some rev
            ∧ fst (prompt_revision_choice
                     [Example.rev 5 "2020" "ann"; Example.rev 9 "2019" "bob"]
                     (Example.typing [" 1 "; "2"]))
              = Ok (revisionId rev)).
Proof.
  split; [|split].
  - apply (proj1 (prompt_revision_choice_spec
                    [Example.rev 5 "2020" "ann"] "7" [] []) _ eq_refl).
  - destruct (proj1 (proj2 (prompt_revision_choice_spec
                [Example.rev 5 "2020" "ann"; Example.rev 9 "2019" "bob"]
                " " ["1"] [])))
      as (m & Hrun & Hm & _).
    + simpl. lia.
    + reflexivity.
    + exists m. split; [exact Hrun|exact Hm].
  - destruct (proj2 (proj2 (prompt_revision_choice_spec
                [Example.rev 5 "2020" "ann"; Example.rev 9 "2019" "bob"]
                " 1 " ["2"] [])) 1)
      as (rev & Hrev & Hrun).
    + simpl. lia.
    + split; [split; [discriminate|reflexivity]|reflexivity].
    + simpl. lia.
    + exists rev. split; [exact Hrev|]. unfold Example.typing. by rewrite Hrun.
Defined.

Example prompt_revision_choice_retry :
  fst (prompt_revision_choice
         [Example.rev 5 "2020" "ann"; Example.rev 9 "2019" "bob"]
         (Example.typing ["x"; "3"; "0"; "2"]))
  = Ok 9.
Proof. reflexivity. Qed.

(** ** C3: references in batch mode *)









Example build_song_ids_in_order :
  build_song_ids_from_urls ["https://x/a-tab-s12"; "tab-s7"; "https://x/b-s12"]
  = Ok [12; 7; 12].
Proof. reflexivity. Qed.

(** ** C7: free-text references in interactive mode *)

Lemma item_ok {A} (l : list A) (idx : Z) (key : A → Z) (id : Z) :
  item l idx key = Ok id → ∃ x, x ∈ l ∧ id = key x.
Proof.
  unfold item. destruct (l !! Z.to_nat (idx - 1)) as [x|] eqn:Hx; [|done].
  intros [= <-]. exists x. split; [|done]. by eapply list_elem_of_lookup_2.
Qed.

Lemma song_choice_loop_ok songs lines tr id w' :
  song_choice_loop songs lines tr = (Ok id, w') →
  (∃ song, song ∈ songs ∧ id = songId song) ∧ ∃ later, trace w' = tr ++ later.
Proof.
  revert tr. induction lines as [|line rest IH]; intros tr; simpl; [done|].
  destruct (Py.isdigit (Py.strip line)); simpl.
  - destruct (Py.int (Py.strip line)) as [idx|e]; [|done].
    destruct ((1 <=? idx) && (idx <=? Z.of_nat (length songs))).
    + intros [= Hitem <-]. split; [by eapply item_ok|]. by eexists.
    + intros [Hsong [later Hlater]]%IH. split; [done|].
      rewrite Hlater, <- !app_assoc. by eexists.
  - intros [Hsong [later Hlater]]%IH. split; [done|].
    rewrite Hlater, <- !app_assoc. by eexists.
Qed.

Lemma prompt_song_choice_ok songs w id w' :
  prompt_song_choice songs w = (Ok id, w') →
  (∃ song, song ∈ songs ∧ id = songId song) ∧ ∃ later, trace w' = trace w ++ later.
Proof.
  assert (∀ w, (print "Search results:";; print_lines (song_lines songs);;
                on_stdin (song_choice_loop songs)) w = (Ok id, w') →
            (∃ song, song ∈ songs ∧ id = songId song)
            ∧ ∃ later, trace w' = trace w ++ later) as Hloop.
  { clear w. intros w. unfold mbind, IO_bind, print, print_lines, on_stdin,
      emits, emit. simpl.
    intros [Hsong [later Hlater]]%song_choice_loop_ok. split; [done|].
    rewrite Hlater, <- !app_assoc. by eexists. }
  destruct songs as [|s1 [|s2 rest]]; try apply Hloop.
  intros [= <- <-]. split; [exists s1; split; [left|done]|].
  exists []. by rewrite app_nil_r.
Qed.

(** Words that are blank once joined are not searched for, whatever the
    service would answer. *)
Lemma blank_words_not_searched :
  [" "] ≠ []
  ∧ forallb is_url [" "] = false
  ∧ search_json Example.env (SONGSTERR_SEARCH 20 EmptyString)
    = Ok [Example.song 11 "AC/DC" "T.N.T."; Example.song 12 "AC/DC" "Thunderstruck"]
  ∧ resolve_song_ids Example.env [" "] true 20 (Example.typing ["1"])
    = (Raise EmptySearchError, Example.typing ["1"]).
Proof. split; [discriminate|]. repeat split. Qed.

(** C7, as the program has it.  In interactive mode, a non-empty reference
    list that is not all URL-shaped is joined with single spaces and
    trimmed.  When nothing is left, the empty-search error is raised and
    nothing is searched.  Otherwise the text is the search query: the
    search request is issued first, and every successful outcome is a
    sequence of exactly one identifier, that of one of the songs found.  A
    single song found is returned without a prompt; among several, the
    digits of a number [k] between 1 and their count select the [k]-th. *)
Theorem resolve_song_ids_search (env : Env) (urls : list string)
    (max_results : Z) (w : World) :
  urls ≠ [] → forallb is_url urls = false →
  let query := Py.strip (Py.join " " urls) in
  let url := SONGSTERR_SEARCH max_results query in
  (query = EmptyString →
     resolve_song_ids env urls true max_results w = (Raise EmptySearchError, w))
  ∧ (query ≠ EmptyString →
       resolve_song_ids env urls true max_results w
       = (id ← choose_song_id env query max_results; mret [id]) w
       ∧ (∀ ids w',
            resolve_song_ids env urls true max_results w = (Ok ids, w') →
            ∃ songs song later,
              search_json env url = Ok songs ∧ song ∈ songs
              ∧ ids = [songId song]
              ∧ trace w' = trace w ++ HttpGet url :: later)
       ∧ (∀ song, search_json env url = Ok [song] →
            resolve_song_ids env urls true max_results w
            = (Ok [songId song], emit (HttpGet url) w))
       ∧ (∀ songs line rest k,
            search_json env url = Ok songs → (2 ≤ length songs)%nat →
            stdin w = line :: rest → numeric_entry line k →
            1 ≤ k ≤ Z.of_nat (length songs) →
            ∃ song, songs !! Z.to_nat (k - 1) = Some song
                    ∧ resolve_song_ids env urls true max_results w
                      = (Ok [songId song],
                         {| stdin := rest;
                            trace := trace w ++ [HttpGet url]
                                     ++ [Print "Search results:"]
                                     ++ (Print <$> song_lines songs)
                                     ++ [Input "Choose a song number: "] |}))).
Proof.
  intros Hne Hnot query url.
  assert (resolve_song_ids env urls true max_results w
          = if String.eqb query EmptyString
            then (Raise EmptySearchError, w)
            else (id ← choose_song_id env query max_results; mret [id]) w) as Hrun.
  { destruct urls as [|u us]; [done|].
    unfold resolve_song_ids. rewrite Hnot. fold query.
    by destruct (String.eqb query EmptyString). }
  split.
  - intros Hq. by rewrite Hrun, Hq.
  - intros Hq. apply String.eqb_neq in Hq. rewrite Hq in Hrun.
    split; [done|]. rewrite Hrun. clear Hrun.
    unfold choose_song_id, search_songs, http_get. fold url.
    unfold mbind at 1 2 3. unfold IO_bind. cbn beta.
    split; [|split].
    + intros ids w'. destruct (search_json env url) as [songs|e]; [|done].
      destruct songs as [|s1 ss]; [done|]. cbn beta iota. unfold mret at 1, IO_ret at 1.
      destruct (prompt_song_choice (s1 :: ss) (emit (HttpGet url) w))
        as [[id|e] w1] eqn:Hchoice; [|done].
      intros [= <- <-].
      apply prompt_song_choice_ok in Hchoice as [(song & Hin & ->) [later Hlater]].
      exists (s1 :: ss), song, later. repeat split; [done|].
      rewrite Hlater. simpl. by rewrite <- app_assoc.
    + by intros song ->.
    + intros songs line rest k -> Hlen Hstdin Hentry Hk.
      destruct (item_in_range songs k songId Hk) as (song & Hsong & Hitem).
      exists song. split; [done|].
      destruct songs as [|s1 [|s2 ss]]; simpl in Hlen; [lia|lia|].
      unfold prompt_song_choice, mbind, IO_bind, print, print_lines,
        on_stdin, emits, emit, mret, IO_ret.
      cbv beta iota zeta. cbn [trace stdin]. rewrite Hstdin.
      rewrite (song_choice_loop_numeric _ _ _ _ _ Hentry Hk), Hitem.
      by rewrite <- !app_assoc.
Qed.

Lemma resolve_song_ids_search_witness :
  resolve_song_ids Example.env [" "; EmptyString] true 20 (Example.typing ["2"])
  = (Raise EmptySearchError, Example.typing ["2"])
  ∧ ∃ song,
      [Example.song 11 "AC/DC" "T.N.T."; Example.song 12 "AC/DC" "Thunderstruck"]
        !! 1%nat = Some song
      ∧ fst (resolve_song_ids Example.env ["ac dc"; "tnt"] true 20
               (Example.typing ["2"]))
        = Ok [songId song].
Proof.
  split.
  - apply (resolve_song_ids_search Example.env [" "; EmptyString] 20
             (Example.typing ["2"])); [discriminate|reflexivity|reflexivity].
  - destruct (proj2 (resolve_song_ids_search Example.env ["ac dc"; "tnt"] 20
                       (Example.typing ["2"]) ltac:(discriminate) eq_refl)
                ltac:(discriminate))
      as (_ & _ & _ & Hpick).
    destruct (Hpick
                [Example.song 11 "AC/DC" "T.N.T.";
                 Example.song 12 "AC/DC" "Thunderstruck"] "2" [] 2)
      as (song & Hsong & Hrun).
    + reflexivity.
    + simpl. lia.
    + reflexivity.
    + split; [split; [discriminate|reflexivity]|reflexivity].
    + simpl. lia.
    + exists song. split; [exact Hsong|]. by rewrite Hrun.
Defined.

Example resolve_song_ids_joined_query :
  resolve_song_ids Example.env ["ac dc"; "https://x/tab-s5"] true 20
    (Example.typing ["9"; "1"])
  = (Ok [11],
     {| stdin := [];
        trace := [HttpGet "https://www.songsterr.com/api/songs?size=20&pattern=ac dc https://x/tab-s5";
                  Print "Search results:";
                  Print "1) id=11 artist=AC/DC title=T.N.T.";
                  Print "2) id=12 artist=AC/DC title=Thunderstruck";
                  Input "Choose a song number: ";
                  Print "Please enter a valid number from the list.";
                  Input "Choose a song number: "] |}).
Proof. reflexivity. Qed.

(** ** Paths and extensions *)

Lemma string_length_app (a b : string) :
  String.length (a +:+ b) = (String.length a + String.length b)%nat.
Proof. induction a; simpl; congruence. Qed.

Lemma take_app_length (a b : string) : Py.take (String.length a) (a +:+ b) = a.
Proof. induction a; simpl; [by destruct b|congruence]. Qed.

Lemma drop_app_length (a b : string) : Py.drop (String.length a) (a +:+ b) = b.
Proof. induction a; simpl; [by destruct b|congruence]. Qed.

Lemma take_drop (n : nat) (s : string) : Py.take n s +:+ Py.drop n s = s.
Proof.
  revert s. induction n as [|n IH]; intros [|c s]; simpl; try done.
  by rewrite IH.
Qed.

Lemma get_app_length (a b : string) :
  String.get (String.length a) (a +:+ b) = String.get 0 b.
Proof. induction a; simpl; [done|congruence]. Qed.

Lemma lacks_app (c : ascii) (a b : string) :
  lacks c (a +:+ b) ↔ lacks c a ∧ lacks c b.
Proof. unfold lacks. rewrite all_chars_app. apply andb_true_iff. Qed.

Lemma lacks_cons (c x : ascii) (s : string) :
  lacks c (String x s) ↔ x ≠ c ∧ lacks c s.
Proof.
  unfold lacks. simpl. rewrite andb_true_iff, negb_true_iff.
  by rewrite Ascii.eqb_neq.
Qed.

(** A string lacks a character or splits at its last occurrence. *)
Lemma last_occurrence (c : ascii) (s : string) :
  lacks c s ∨ ∃ a b, s = a +:+ String c b ∧ lacks c b.
Proof.
  induction s as [|x s IH]; [by left|].
  destruct IH as [Hno|(a & b & -> & Hb)].
  - destruct (decide (x = c)) as [->|Hne].
    + right. by exists EmptyString, s.
    + left. by apply lacks_cons.
  - right. by exists (String x a), b.
Qed.

Lemma rfind_from_lacks (c : ascii) (s : string) (i : Z) :
  lacks c s → Py.rfind_from c s i = -1.
Proof.
  revert i. induction s as [|x s IH]; intros i Hno; simpl; [done|].
  apply lacks_cons in Hno as [Hx Hs]. rewrite (IH _ Hs). simpl.
  by apply Ascii.eqb_neq in Hx as ->.
Qed.

Lemma rfind_from_last (c : ascii) (a b : string) (i : Z) :
  0 ≤ i → lacks c b →
  Py.rfind_from c (a +:+ String c b) i = i + Z.of_nat (String.length a).
Proof.
  revert i. induction a as [|x a IH]; intros i Hi Hb; simpl.
  - rewrite (rfind_from_lacks _ _ _ Hb). simpl. rewrite Ascii.eqb_refl. lia.
  - rewrite IH by (lia || done).
    destruct (Z.leb_spec 0 (i + 1 + Z.of_nat (String.length a))); lia.
Qed.

Lemma rfind_lacks (c : ascii) (s : string) : lacks c s → Py.rfind s c = -1.
Proof. apply rfind_from_lacks. Qed.

Lemma rfind_last (c : ascii) (a b : string) :
  lacks c b → Py.rfind (a +:+ String c b) c = Z.of_nat (String.length a).
Proof. intros Hb. unfold Py.rfind. by rewrite rfind_from_last. Qed.

Lemma app_eq_shorter (a1 a2 x y : string) :
  a1 +:+ x = a2 +:+ y → (String.length a2 < String.length a1)%nat →
  ∃ m, a1 = a2 +:+ m ∧ y = m +:+ x.
Proof.
  revert a1. induction a2 as [|c a2 IH]; intros a1 Heq Hlen; simpl in *.
  - by exists a1.
  - destruct a1 as [|c1 a1]; simpl in *; [lia|].
    injection Heq as -> Heq.
    destruct (IH a1 Heq) as (m & -> & ->); [lia|]. by exists m.
Qed.

Lemma skip_leading_dots_true (p : string) (n i j : nat) (c : ascii) :
  (i <= j < i + n)%nat → String.get j p = Some c → c ≠ "."%char →
  Py.skip_leading_dots p i n = true.
Proof.
  revert i. induction n as [|n IH]; intros i Hj Hget Hc; simpl; [lia|].
  destruct (String.get i p) as [x|] eqn:Hx; [|done].
  destruct (Ascii.eqb_spec x "."%char) as [->|Hne]; [|done].
  apply IH; [|done|done].
  destruct (decide (i = j)) as [->|]; [congruence|lia].
Qed.

(** The extension [os.path.splitext] returns: the root and the extension
    make up the path, and the extension is empty or a dot followed by
    characters that are neither dots nor slashes. *)
Lemma splitext_shape (p : string) :
  p = fst (Py.splitext p) +:+ snd (Py.splitext p)
  ∧ (snd (Py.splitext p) = EmptyString
     ∨ ∃ e, snd (Py.splitext p) = String "." e ∧ lacks "." e ∧ lacks "/" e).
Proof.
  unfold Py.splitext.
  destruct (_ && _) eqn:Hcond; simpl;
    [|split; [by rewrite append_nil_r|by left]].
  split; [by rewrite take_drop|right].
  apply andb_true_iff in Hcond as [Hlt%Z.ltb_lt _].
  destruct (last_occurrence "." p) as [Hno|(a & b & -> & Hb)].
  { rewrite (rfind_lacks _ _ Hno) in Hlt.
    destruct (last_occurrence "/" p) as [Hno'|(a' & b' & -> & Hb')].
    - rewrite (rfind_lacks _ _ Hno') in Hlt. lia.
    - rewrite (rfind_last _ _ _ Hb') in Hlt. lia. }
  rewrite (rfind_last _ _ _ Hb) in *. rewrite Nat2Z.id, drop_app_length.
  exists b. split; [done|split; [done|]].
  destruct (last_occurrence "/" (a +:+ String "." b)) as [Hno|(a' & b' & Heq & Hb')].
  - apply lacks_app in Hno as [_ Hno]. by apply lacks_cons in Hno as [_ ?].
  - rewrite Heq, (rfind_last _ _ _ Hb') in Hlt.
    destruct (app_eq_shorter a a' (String "." b) (String "/" b') Heq)
      as (m & -> & Hm); [lia|].
    destruct m as [|c m]; simpl in Hm; [done|].
    injection Hm as <- ->.
    apply lacks_app in Hb' as [_ Hb']. by apply lacks_cons in Hb' as [_ ?].
Qed.

(** A path that ends in [file.gp5] has the extension [.gp5]. *)
Lemma splitext_file_gp5 (dir : string) :
  Py.splitext (dir +:+ "file.gp5") = (dir +:+ "file", ".gp5").
Proof.
  unfold Py.splitext.
  assert (dir +:+ "file.gp5" = (dir +:+ "file") +:+ String "." "gp5") as Hdot
    by (by rewrite append_assoc).
  assert (Py.rfind (dir +:+ "file.gp5") "." = Z.of_nat (String.length dir) + 4)
    as Hd.
  { rewrite Hdot, rfind_last by done. rewrite string_length_app. simpl. lia. }
  assert (Py.rfind (dir +:+ "file.gp5") "/" < Z.of_nat (String.length dir))
    as Hs.
  { destruct (last_occurrence "/" dir) as [Hno|(a & b & -> & Hb)].
    - rewrite rfind_lacks; [lia|]. by apply lacks_app.
    - rewrite append_assoc. simpl. rewrite rfind_last by (by apply lacks_app).
      rewrite string_length_app. simpl. lia. }
  assert (-1 ≤ Py.rfind (dir +:+ "file.gp5") "/") as Hs'.
  { destruct (last_occurrence "/" (dir +:+ "file.gp5")) as [Hno|(a & b & -> & Hb)].
    - by rewrite rfind_lacks.
    - rewrite rfind_last by done. lia. }
  rewrite Hd. destruct (Z.ltb_spec (Py.rfind (dir +:+ "file.gp5") "/")
                          (Z.of_nat (String.length dir) + 4)); [|lia].
  rewrite (skip_leading_dots_true _ _ _ (String.length dir) "f"); simpl;
    [|lia|by rewrite get_app_length|done].
  replace (Z.to_nat (Z.of_nat (String.length dir) + 4))
    with (String.length (dir +:+ "file")) by (rewrite string_length_app; simpl; lia).
  rewrite Hdot. by rewrite take_app_length, drop_app_length.
Qed.

(** ** C5: the output file name *)

(** C5.  With an artist and a title in the revision detail, the file name
    is the sanitized artist, [" - "], the sanitized title and the
    extension.  The extension is the one [os.path.splitext] finds in the
    path component of the source URL, a dot followed by characters that are
    neither dots nor slashes, or [".gp"] when it finds none.  For artist
    [AC/DC], title [T.N.T.] and a path that ends in [file.gp5] the name is
    [AC_DC - T.N.T..gp5]. *)
Theorem output_filename_spec (urlparse_path : string → result string)
    (data : RevisionDetail) (source_url path artist title : string) :
  detail_artist data = Some artist →
  detail_title data = Some title →
  urlparse_path source_url = Ok path →
  let ext := snd (Py.splitext path) in
  output_filename urlparse_path data source_url
  = Ok (sanitize_filename artist +:+ " - " +:+ sanitize_filename title
        +:+ (if String.eqb ext EmptyString then ".gp" else ext))
  ∧ path = fst (Py.splitext path) +:+ ext
  ∧ (ext = EmptyString ∨ ∃ e, ext = String "." e ∧ lacks "." e ∧ lacks "/" e)
  ∧ (∀ dir, artist = "AC/DC" → title = "T.N.T." → path = dir +:+ "file.gp5" →
       output_filename urlparse_path data source_url = Ok "AC_DC - T.N.T..gp5").
Proof.
  intros Hartist Htitle Hpath ext.
  assert (output_filename urlparse_path data source_url
          = Ok (sanitize_filename artist +:+ " - " +:+ sanitize_filename title
                +:+ (if String.eqb ext EmptyString then ".gp" else ext))) as Hname.
  { unfold output_filename. by rewrite Hartist, Htitle, Hpath. }
  split; [done|].
  destruct (splitext_shape path) as [Happ Hshape].
  split; [done|split; [done|]].
  intros dir -> -> ->. rewrite Hname. unfold ext.
  by rewrite splitext_file_gp5.
Qed.

Lemma output_filename_spec_witness :
  output_filename Example.url_path
    {| detail_source := Some "https://gp.example.org/d/file.gp5?x=1";
       detail_artist := Some "AC/DC";
       detail_title := Some "T.N.T." |}
    "https://gp.example.org/d/file.gp5?x=1"
  = Ok "AC_DC - T.N.T..gp5"
  ∧ output_filename Example.url_path
      {| detail_source := Some "https://gp.example.org/d/tab";
         detail_artist := Some "AC/DC";
         detail_title := Some "T.N.T." |}
      "https://gp.example.org/d/tab"
    = Ok "AC_DC - T.N.T..gp".
Proof.
  split.
  - apply (proj2 (proj2 (proj2
      (output_filename_spec Example.url_path
         {| detail_source := Some "https://gp.example.org/d/file.gp5?x=1";
            detail_artist := Some "AC/DC";
            detail_title := Some "T.N.T." |}
         "https://gp.example.org/d/file.gp5?x=1" "/d/file.gp5" "AC/DC" "T.N.T."
         eq_refl eq_refl eq_refl))) "/d/"); reflexivity.
  - apply (output_filename_spec Example.url_path
             {| detail_source := Some "https://gp.example.org/d/tab";
                detail_artist := Some "AC/DC";
                detail_title := Some "T.N.T." |}
             "https://gp.example.org/d/tab" "/d/tab" "AC/DC" "T.N.T.");
      reflexivity.
Defined.

(** ** C10: a revision detail without artist or title *)

(** C10.  When the revision detail has a source URL, a missing artist
    stands as [Unknown Artist] and a missing title as [Unknown Title] in
    the file name, and the download goes on: with the asset delivered and
    the file opened, the fetch succeeds and writes to that name. *)
Theorem download_gp_file_defaults (urlparse_path : string → result string)
    (env : Env) (revision_id : Z) (out_dir : string) (w : World)
    (data : RevisionDetail) (source_url path : string) :
  revision_json env (SONGSTERR_REVISION revision_id) = Ok data →
  detail_source data = Some source_url →
  source_url ≠ EmptyString →
  urlparse_path source_url = Ok path →
  let ext := if String.eqb (snd (Py.splitext path)) EmptyString then ".gp"
             else snd (Py.splitext path) in
  let filename :=
    sanitize_filename (default "Unknown Artist" (detail_artist data))
    +:+ " - " +:+ sanitize_filename (default "Unknown Title" (detail_title data))
    +:+ ext in
  let out_path := Py.path_join out_dir filename in
  output_filename urlparse_path data source_url = Ok filename
  ∧ (detail_artist data = None →
       filename
       = "Unknown Artist - "
         +:+ sanitize_filename (default "Unknown Title" (detail_title data))
         +:+ ext)
  ∧ (detail_title data = None →
       filename
       = sanitize_filename (default "Unknown Artist" (detail_artist data))
         +:+ " - Unknown Title" +:+ ext)
  ∧ (∀ chunks,
       content env source_url = Ok (chunks, None) →
       open_wb env out_path = None →
       download_gp_file urlparse_path env revision_id out_dir w
       = (Ok tt,
          emits ([HttpGet (SONGSTERR_REVISION revision_id);
                  Print ("Downloading: " +:+ source_url);
                  HttpGet source_url;
                  FileOpen out_path]
                 ++ (FileWrite out_path
                       <$> filter (λ chunk, chunk ≠ EmptyString) chunks)
                 ++ [Print ("Saved as: " +:+ out_path)]) w)).
Proof.
  intros Hdata Hsource Hne Hpath ext filename out_path.
  assert (output_filename urlparse_path data source_url = Ok filename) as Hname.
  { unfold output_filename. by rewrite Hpath. }
  split; [done|]. split; [|split].
  - intros Hnone. unfold filename. by rewrite Hnone.
  - intros Hnone. unfold filename. by rewrite Hnone.
  - intros chunks Hcontent Hopen.
    unfold download_gp_file, http_get, mbind, IO_bind. rewrite Hdata, Hsource.
    destruct source_url as [|c s]; [done|].
    unfold lift. rewrite Hname. unfold print. fold out_path.
    cbv beta iota zeta. rewrite Hcontent.
    unfold open_file. rewrite Hopen. unfold save_chunks, emits, emit.
    cbn [trace stdin]. by rewrite <- !app_assoc.
Qed.

Lemma download_gp_file_defaults_witness :
  output_filename Example.url_path
    {| detail_source := Some "https://gp.example.org/d/file.gp5?x=1";
       detail_artist := None; detail_title := None |}
    "https://gp.example.org/d/file.gp5?x=1"
  = Ok "Unknown Artist - Unknown Title.gp5"
  ∧ fst (download_gp_file Example.url_path
           {| meta_json := meta_json Example.env;
              search_json := search_json Example.env;
              revision_json := λ _,
                Ok {| detail_source := Some "https://gp.example.org/d/file.gp5?x=1";
                      detail_artist := None; detail_title := None |};
              content := content Example.env;
              open_wb := open_wb Example.env |}
           9 "./output" Example.quiet)
    = Ok tt.
Proof.
  pose proof (download_gp_file_defaults Example.url_path
    {| meta_json := meta_json Example.env;
       search_json := search_json Example.env;
       revision_json := λ _,
         Ok {| detail_source := Some "https://gp.example.org/d/file.gp5?x=1";
               detail_artist := None; detail_title := None |};
       content := content Example.env;
       open_wb := open_wb Example.env |}
    9 "./output" Example.quiet
    {| detail_source := Some "https://gp.example.org/d/file.gp5?x=1";
       detail_artist := None; detail_title := None |}
    "https://gp.example.org/d/file.gp5?x=1" "/d/file.gp5"
    eq_refl eq_refl ltac:(discriminate) eq_refl) as (Hname & _ & _ & Hrun).
  split; [exact Hname|].
  by rewrite (Hrun ["abc"; EmptyString; "de"] eq_refl eq_refl).
Defined.

Example download_gp_file_unknown :
  download_gp_file Example.url_path
    {| meta_json := meta_json Example.env;
       search_json := search_json Example.env;
       revision_json := λ _,
         Ok {| detail_source := Some "https://gp.example.org/d/tab";
               detail_artist := None; detail_title := Some "T.N.T." |};
       content := content Example.env;
       open_wb := open_wb Example.env |}
    9 "out" Example.quiet
  = (Ok tt,
     {| stdin := [];
        trace := [HttpGet "https://www.songsterr.com/api/revision/9";
                  Print "Downloading: https://gp.example.org/d/tab";
                  HttpGet "https://gp.example.org/d/tab";
                  FileOpen "out/Unknown Artist - T.N.T..gp";
                  FileWrite "out/Unknown Artist - T.N.T..gp" "abc";
                  FileWrite "out/Unknown Artist - T.N.T..gp" "de";
                  Print "Saved as: out/Unknown Artist - T.N.T..gp"] |}).
Proof. reflexivity. Qed.

Lemma sanitize_filename_spec_witness :
  String.get 2 (sanitize_filename "AC/DC") = Some "_"%char
  ∧ String.get 3 (sanitize_filename "AC/DC") = Some "D"%char.
Proof.
  split.
  - apply (proj1 (proj2 (proj2 (sanitize_filename_spec "AC/DC"))) 2%nat "/"%char);
      [reflexivity|]. apply is_sanitized_char_spec. reflexivity.
  - apply (proj1 (proj2 (proj2 (sanitize_filename_spec "AC/DC"))) 3%nat "D"%char);
      [reflexivity|]. intros Hin%is_sanitized_char_spec. discriminate.
Defined.

(** ** A whole run

    In batch mode a reference given twice is fetched once, at the latest
    revision of its song. *)
Example main_body_batch :
  main_body Example.url_path Example.env
    ["https://www.songsterr.com/a/wsa/tab-s12";
     "https://www.songsterr.com/a/wsa/tab-s12"]
    false 20 "./output" Example.quiet
  = (Ok tt,
     {| stdin := [];
        trace := [Print "Song ID: 12";
                  HttpGet "https://www.songsterr.com/api/meta/12/revisions";
                  Print "Latest revision ID: 9";
                  HttpGet "https://www.songsterr.com/api/revision/9";
                  Print "Downloading: https://gp.example.org/d/file.gp5?x=1";
                  HttpGet "https://gp.example.org/d/file.gp5?x=1";
                  FileOpen "./output/AC_DC - T.N.T..gp5";
                  FileWrite "./output/AC_DC - T.N.T..gp5" "abc";
                  FileWrite "./output/AC_DC - T.N.T..gp5" "de";
                  Print "Saved as: ./output/AC_DC - T.N.T..gp5"] |}).
Proof. reflexivity. Qed.

(** * More of the program

    Properties of the functions beyond the claims of the specification,
    read off the code. *)

(** ** Identifiers *)







(** ** Safe file names *)

Lemma lacks_sanitized (c : ascii) (s : string) :
  c ∈ sanitize_chars → lacks c (sanitize_filename s).
Proof.
  intros Hc. induction s as [|x s IH]; [done|].
  simpl. apply lacks_cons. split; [|done].
  destruct (is_sanitized_char x) eqn:Hx.
  - intros <-. apply is_sanitized_char_spec in Hc. by rewrite underscore_kept in Hc.
  - intros ->. apply is_sanitized_char_spec in Hc. congruence.
Qed.

Lemma sanitize_filename_app (a b : string) :
  sanitize_filename (a +:+ b) = sanitize_filename a +:+ sanitize_filename b.
Proof. induction a as [|c a IH]; simpl; [done|]. by rewrite IH. Qed.

(** X3.  A sanitized name has none of the nine characters; a name that has none
    of them is left as it is; and a name is sanitized piece by piece. *)
Theorem sanitize_filename_safe (a b : string) :
  (∀ c, c ∈ sanitize_chars → lacks c (sanitize_filename a))
  ∧ ((∀ c, c ∈ sanitize_chars → lacks c a) → sanitize_filename a = a)
  ∧ sanitize_filename (a +:+ b) = sanitize_filename a +:+ sanitize_filename b.
Proof.
  split; [intros c Hc; by apply lacks_sanitized|].
  split; [|apply sanitize_filename_app].
  induction a as [|x a IH]; intros Hfree; [done|]. simpl.
  rewrite IH.
  - destruct (is_sanitized_char x) eqn:Hx; [|done].
    apply is_sanitized_char_spec in Hx.
    specialize (Hfree x Hx). by apply lacks_cons in Hfree as [? _].
  - intros c Hc. specialize (Hfree c Hc). by apply lacks_cons in Hfree as [_ ?].
Qed.

Lemma sanitize_filename_safe_witness :
  sanitize_filename "Thunderstruck (live) - 1991.gp5" = "Thunderstruck (live) - 1991.gp5".
Proof.
  apply (proj1 (proj2 (sanitize_filename_safe "Thunderstruck (live) - 1991.gp5"
                         EmptyString))).
  intros c Hc. unfold sanitize_chars in Hc.
  repeat (apply elem_of_cons in Hc as [->|Hc]; [reflexivity|]).
  by apply elem_of_nil in Hc.
Defined.

(** ** Deduplication, again *)

Lemma dedupe_NoDup (items : list string) : NoDup (dedupe_preserve_order items).
Proof.
  induction items as [|x items IH]; [constructor|].
  rewrite dedupe_cons. constructor.
  - rewrite list_elem_of_filter. naive_solver.
  - by apply NoDup_filter.
Qed.

Lemma filter_all {A} (P : A → Prop) `{∀ x, Decision (P x)} (l : list A) :
  Forall P l → filter P l = l.
Proof.
  induction 1 as [|x l Hx Hl IH]; [done|].
  by rewrite filter_cons_True, IH.
Qed.

Lemma dedupe_NoDup_id (items : list string) :
  NoDup items → dedupe_preserve_order items = items.
Proof.
  induction 1 as [|x items Hx Hnd IH]; [done|].
  rewrite dedupe_cons, IH. f_equal. apply filter_all.
  apply Forall_forall. intros y Hy ->. done.
Qed.

(** X4.  A list without duplicates is left as it is, so removing the duplicates
    a second time changes nothing; the output is never longer than the
    input. *)
Theorem dedupe_preserve_order_idempotent (items : list string) :
  (NoDup items → dedupe_preserve_order items = items)
  ∧ dedupe_preserve_order (dedupe_preserve_order items)
    = dedupe_preserve_order items
  ∧ (length (dedupe_preserve_order items) <= length items)%nat.
Proof.
  split; [apply dedupe_NoDup_id|]. split.
  - apply dedupe_NoDup_id, dedupe_NoDup.
  - induction items as [|x items IH]; [done|].
    rewrite dedupe_cons. simpl.
    pose proof (length_filter (λ y, y ≠ x) (dedupe_preserve_order items)). lia.
Qed.

Lemma dedupe_preserve_order_idempotent_witness :
  dedupe_preserve_order ["u1"; "u2"; "u3"] = ["u1"; "u2"; "u3"].
Proof.
  apply (proj1 (dedupe_preserve_order_idempotent ["u1"; "u2"; "u3"])).
  repeat (constructor; [set_solver|]). constructor.
Defined.

(** ** Reading references from a file *)

Lemma rstrip_idempotent (s : string) : Py.rstrip (Py.rstrip s) = Py.rstrip s.
Proof.
  induction s as [|c s IH]; simpl; [done|].
  destruct (Py.rstrip s) as [|c' t] eqn:Ht.
  - destruct (Py.char_isspace c) eqn:Hc; simpl; [done|]. by rewrite Hc.
  - change (Py.rstrip (String c (String c' t))) with
      (match Py.rstrip (String c' t) with
       | EmptyString => if Py.char_isspace c then EmptyString
                        else String c EmptyString
       | t' => String c t'
       end).
    by rewrite IH.
Qed.

Lemma rstrip_head (c : ascii) (s : string) :
  Py.char_isspace c = false → ∃ t, Py.rstrip (String c s) = String c t.
Proof.
  intros Hc. simpl. destruct (Py.rstrip s); rewrite ?Hc; by eexists.
Qed.

Lemma lstrip_head (s : string) :
  Py.lstrip s = EmptyString
  ∨ ∃ c t, Py.lstrip s = String c t ∧ Py.char_isspace c = false.
Proof.
  induction s as [|c s IH]; simpl; [by left|].
  destruct (Py.char_isspace c) eqn:Hc; [done|]. right. by exists c, s.
Qed.

Lemma strip_head (s : string) :
  Py.strip s = EmptyString
  ∨ ∃ c t, Py.strip s = String c t ∧ Py.char_isspace c = false.
Proof.
  unfold Py.strip. destruct (lstrip_head s) as [->|(c & t & -> & Hc)]; [by left|].
  destruct (rstrip_head c t Hc) as [t' ->]. right. by exists c, t'.
Qed.

Lemma strip_idempotent (s : string) : Py.strip (Py.strip s) = Py.strip s.
Proof.
  destruct (strip_head s) as [->|(c & t & Heq & Hc)]; [done|].
  unfold Py.strip at 1. rewrite Heq. simpl Py.lstrip. rewrite Hc.
  rewrite <- Heq. unfold Py.strip. apply rstrip_idempotent.
Qed.

Lemma all_chars_lstrip p (s : string) :
  Py.all_chars p s = true → Py.all_chars p (Py.lstrip s) = true.
Proof.
  induction s as [|c s IH]; simpl; [done|].
  intros [Hc Hs]%andb_true_iff.
  destruct (Py.char_isspace c); [by apply IH|]. simpl. by rewrite Hc, Hs.
Qed.

Lemma all_chars_rstrip p (s : string) :
  Py.all_chars p s = true → Py.all_chars p (Py.rstrip s) = true.
Proof.
  induction s as [|c s IH]; simpl; [done|].
  intros [Hc Hs]%andb_true_iff. specialize (IH Hs).
  destruct (Py.rstrip s) as [|c' t].
  - destruct (Py.char_isspace c); simpl; [done|]. by rewrite Hc.
  - simpl in *. by rewrite Hc, IH.
Qed.

Lemma one_line_strip (s : string) : one_line s → one_line (Py.strip s).
Proof. intros Hs. by apply all_chars_rstrip, all_chars_lstrip. Qed.

Lemma load_loop_urls (lines urls : list string) :
  load_loop lines urls = urls ++ load_loop lines [].
Proof.
  revert urls. induction lines as [|line lines IH]; intros urls; simpl.
  - by rewrite app_nil_r.
  - destruct (_ || _); [done|].
    rewrite (IH (urls ++ _)), (IH [_]). by rewrite <- app_assoc.
Qed.

Lemma load_loop_filter (lines : list string) :
  load_loop lines []
  = filter (λ u, is_reference u = true) (Py.strip <$> lines).
Proof.
  induction lines as [|line lines IH]; [done|]. simpl.
  destruct (_ || _) eqn:Hskip.
  - rewrite filter_cons_False; [done|]. unfold is_reference. by rewrite Hskip.
  - rewrite filter_cons_True by (unfold is_reference; by rewrite Hskip).
    rewrite load_loop_urls. simpl. by rewrite IH.
Qed.

Lemma splitlines_go_line (line rest cur : string) :
  one_line line →
  Py.splitlines_go (line +:+ rest) (Some cur) false
  = Py.splitlines_go rest (Some (cur +:+ line)) false.
Proof.
  revert cur. induction line as [|c line IH]; intros cur Hline; simpl.
  - by rewrite append_nil_r.
  - apply andb_true_iff in Hline as [Hc%negb_true_iff Hline].
    rewrite Hc. rewrite IH by done. by rewrite append_assoc.
Qed.

Lemma splitlines_go_first (line rest : string) :
  one_line line → line ≠ EmptyString →
  Py.splitlines_go (line +:+ rest) None false
  = Py.splitlines_go rest (Some line) false.
Proof.
  intros Hline Hne. destruct line as [|c line]; [done|]. simpl.
  apply andb_true_iff in Hline as [Hc%negb_true_iff Hline].
  rewrite Hc. by rewrite splitlines_go_line.
Qed.

Lemma splitlines_go_one_line (s : string) (cur : option string) (after_cr : bool) :
  one_line (default EmptyString cur) →
  Forall one_line (Py.splitlines_go s cur after_cr).
Proof.
  revert cur after_cr. induction s as [|c s IH]; intros cur after_cr Hcur; simpl.
  - destruct cur; repeat constructor. done.
  - destruct (after_cr && _); [by apply IH|].
    destruct (Py.is_linebreak c) eqn:Hc.
    + constructor; [done|]. by apply IH.
    + apply IH. simpl. unfold one_line. rewrite all_chars_app. simpl.
      rewrite Hc. simpl. by rewrite andb_true_r.
Qed.

Lemma concat_empty_cons (x : string) (l : list string) :
  String.concat EmptyString (x :: l) = x +:+ String.concat EmptyString l.
Proof. destruct l; simpl; [by rewrite append_nil_r|done]. Qed.

(** The lines of a text made of lines are those lines. *)
Lemma splitlines_text_of_lines (lines : list string) :
  Forall one_line lines → Py.splitlines (text_of_lines lines) = lines.
Proof.
  unfold Py.splitlines, text_of_lines.
  induction 1 as [|line lines Hline Hlines IH]; [done|].
  cbn [map]. rewrite concat_empty_cons, append_assoc.
  destruct line as [|c line].
  - simpl. by rewrite IH.
  - rewrite splitlines_go_first by done. simpl. by rewrite IH.
Qed.

(** References written one per line, with line feeds between them, are
    read back as they are. *)
Lemma splitlines_join (urls : list string) :
  Forall (λ u, one_line u ∧ u ≠ EmptyString) urls →
  Py.splitlines (Py.join (String (Py.chr 10) EmptyString) urls) = urls.
Proof.
  unfold Py.splitlines, Py.join.
  induction 1 as [|u urls [Hu Hne] Hurls IH]; [done|].
  destruct urls as [|u' urls].
  - simpl. rewrite <- (append_nil_r u) at 1.
    by rewrite splitlines_go_first.
  - change (String.concat ?sep (u :: u' :: urls))
      with (u +:+ sep +:+ String.concat sep (u' :: urls)).
    rewrite splitlines_go_first by done.
    remember (String.concat _ (u' :: urls)) as rest eqn:Hrest.
    simpl. by rewrite IH.
Qed.

Lemma is_reference_spec (u : string) :
  is_reference u = true ↔ u ≠ EmptyString ∧ Py.startswith u "#" = false.
Proof.
  unfold is_reference. rewrite negb_true_iff, orb_false_iff, String.eqb_neq.
  done.
Qed.

(** X5.  Reading a file of references.  The text is cut into lines, each line is
    stripped, and the blank lines and the comments are left out, in order.
    A reference read is stripped, not empty, not a comment and without line
    boundary, so a file that lists the references read, one per line, is
    read as those same references.  A file that cannot be read gives its
    error. *)
Theorem load_urls_from_file_spec (open_read : string → result string)
    (path : string) (w : World) :
  path ≠ "-" →
  (∀ e, open_read path = Raise e →
     load_urls_from_file open_read path w = (Raise e, w))
  ∧ (∀ text, open_read path = Ok text →
       let urls := filter (λ u, is_reference u = true)
                     (Py.strip <$> Py.splitlines text) in
       load_urls_from_file open_read path w = (Ok urls, w)
       ∧ Forall (λ u, Py.strip u = u ∧ u ≠ EmptyString
                      ∧ Py.startswith u "#" = false ∧ one_line u) urls
       ∧ ∀ open_read' path' w',
           path' ≠ "-" →
           open_read' path' = Ok (Py.join (String (Py.chr 10) EmptyString) urls) →
           load_urls_from_file open_read' path' w' = (Ok urls, w')).
Proof.
  intros Hpath.
  assert (∀ reader file text w0, file ≠ "-" → reader file = Ok text →
            load_urls_from_file reader file w0
            = (Ok (filter (λ u, is_reference u = true)
                     (Py.strip <$> Py.splitlines text)), w0)) as Hload.
  { intros reader file text w0 Hfile Hread. unfold load_urls_from_file.
    apply String.eqb_neq in Hfile. rewrite Hfile.
    unfold mbind, IO_bind, lift, mret, IO_ret. rewrite Hread.
    by rewrite load_loop_filter. }
  split.
  - intros e Hread. unfold load_urls_from_file.
    apply String.eqb_neq in Hpath. rewrite Hpath.
    unfold mbind, IO_bind, lift. by rewrite Hread.
  - intros text Hread urls.
    assert (Forall (λ u, Py.strip u = u ∧ u ≠ EmptyString
                         ∧ Py.startswith u "#" = false ∧ one_line u) urls)
      as Hclean.
    { apply Forall_forall. intros u [Hu Hin]%list_elem_of_filter.
      apply is_reference_spec in Hu as [Hne Hcomment].
      apply list_elem_of_fmap in Hin as (line & -> & Hline).
      split; [apply strip_idempotent|]. split; [done|]. split; [done|].
      apply one_line_strip.
      pose proof (splitlines_go_one_line text None false eq_refl) as Hall.
      by eapply Forall_forall in Hall. }
    split; [by apply Hload|]. split; [done|].
    intros reader file w0 Hfile Hread'.
    rewrite (Hload _ _ _ _ Hfile Hread'). f_equal. f_equal.
    rewrite splitlines_join
      by (eapply Forall_impl; [exact Hclean|]; naive_solver).
    replace (Py.strip <$> urls) with urls.
    + apply filter_all. eapply Forall_impl; [exact Hclean|].
      intros u (_ & Hne & Hcomment & _). by apply is_reference_spec.
    + clear -Hclean. induction Hclean as [|u us (Hu & _) _ IH]; [done|].
      rewrite fmap_cons, Hu. by f_equal.
Qed.

Lemma load_urls_from_file_spec_witness :
  load_urls_from_file
    (λ _, Ok ("  https://x/tab-s1 " +:+ String (Py.chr 10) "# later"
              +:+ String (Py.chr 13) (String (Py.chr 10) "y-s2")))
    "urls.txt" Example.quiet
  = (Ok ["https://x/tab-s1"; "y-s2"], Example.quiet)
  ∧ load_urls_from_file (λ _, Raise (OSError "No such file or directory"))
      "urls.txt" Example.quiet
    = (Raise (OSError "No such file or directory"), Example.quiet).
Proof.
  split.
  - pose proof (proj2 (load_urls_from_file_spec
             (λ _, Ok ("  https://x/tab-s1 " +:+ String (Py.chr 10) "# later"
                       +:+ String (Py.chr 13) (String (Py.chr 10) "y-s2")))
             "urls.txt" Example.quiet ltac:(discriminate)) _ eq_refl)
      as [Hrun _].
    exact Hrun.
  - apply (proj1 (load_urls_from_file_spec
             (λ _, Raise (OSError "No such file or directory"))
             "urls.txt" Example.quiet ltac:(discriminate)) _ eq_refl).
Defined.

(** X6.  Reading the references from standard input takes all the lines that are
    left, strips them and leaves out the blank lines and the comments; it
    does not look at any file. *)
Theorem load_urls_from_stdin (open_read : string → result string) (w : World) :
  Forall one_line (stdin w) →
  load_urls_from_file open_read "-" w
  = (Ok (filter (λ u, is_reference u = true) (Py.strip <$> stdin w)),
     {| stdin := []; trace := trace w |}).
Proof.
  intros Hlines. unfold load_urls_from_file. simpl.
  unfold mbind, IO_bind, stdin_read, mret, IO_ret.
  fold (text_of_lines (stdin w)).
  by rewrite splitlines_text_of_lines, load_loop_filter.
Qed.

Lemma load_urls_from_stdin_witness :
  load_urls_from_file (λ _, Raise (OSError "unused")) "-"
    (Example.typing ["x-s1"; EmptyString; " # c"; "  y  "])
  = (Ok ["x-s1"; "y"], Example.quiet).
Proof.
  apply (load_urls_from_stdin (λ _, Raise (OSError "unused"))
           (Example.typing ["x-s1"; EmptyString; " # c"; "  y  "])).
  repeat constructor.
Defined.

(** ** Asking again *)







(** X9.  A line of digits that are not all decimal digits, such as a superscript
    two, passes the [isdigit] test of the prompts and then fails in [int]:
    the prompt does not ask again but ends with a [ValueError], the later
    lines unread. *)
Theorem prompt_choice_digit_error (songs : list SongRecord)
    (revisions : list RevisionRecord) (line : string) (rest : list string)
    (tr : list event) :
  Py.isdigit (Py.strip line) = true →
  Py.all_chars Py.is_decimal (Py.strip line) = false →
  complaint (length songs) line = None
  ∧ ((2 ≤ length songs)%nat →
       ∃ msg w', prompt_song_choice songs {| stdin := line :: rest; trace := tr |}
                 = (Raise (ValueError msg), w')
                 ∧ stdin w' = rest)
  ∧ ((2 ≤ length revisions)%nat →
       ∃ msg w', prompt_revision_choice revisions
                   {| stdin := line :: rest; trace := tr |}
                 = (Raise (ValueError msg), w')
                 ∧ stdin w' = rest).
Proof.
  intros Hdigit Hdec.
  assert (Py.int (Py.strip line)
          = Raise (ValueError "invalid literal for int() with base 10")) as Hint.
  { unfold Py.int. rewrite Hdec. by destruct (Py.strip line). }
  assert (String.eqb (Py.strip line) EmptyString = false) as Hne.
  { by destruct (Py.strip line). }
  split; [|split].
  - unfold complaint. by rewrite Hdigit, Hint.
  - intros Hlen. destruct songs as [|s1 [|s2 ss]]; simpl in Hlen; [lia|lia|].
    do 2 eexists. unfold prompt_song_choice, mbind, IO_bind, print,
      print_lines, on_stdin, emits, emit. simpl.
    rewrite Hdigit, Hint. simpl. done.
  - intros Hlen. destruct revisions as [|r1 [|r2 rs]]; simpl in Hlen; [lia|lia|].
    do 2 eexists. unfold prompt_revision_choice, mbind, IO_bind, print,
      print_lines, on_stdin, emits, emit. simpl.
    rewrite Hne, Hdigit, Hint. simpl. done.
Qed.

Lemma prompt_choice_digit_error_witness :
  ∃ msg w',
    prompt_revision_choice
      [Example.rev 5 "2020" "ann"; Example.rev 9 "2019" "bob"]
      {| stdin := [String (Py.chr 178) EmptyString; "1"]; trace := [] |}
    = (Raise (ValueError msg), w')
    ∧ stdin w' = ["1"].
Proof.
  apply (proj2 (proj2 (prompt_choice_digit_error
           [] [Example.rev 5 "2020" "ann"; Example.rev 9 "2019" "bob"]
           (String (Py.chr 178) EmptyString) ["1"] [] eq_refl eq_refl))).
  simpl. lia.
Defined.

Lemma revision_choice_loop_ok revisions lines tr id w' :
  revision_choice_loop revisions lines tr = (Ok id, w') →
  (∃ rev, rev ∈ revisions ∧ id = revisionId rev)
  ∧ ∃ later, trace w' = tr ++ later.
Proof.
  revert tr. induction lines as [|line rest IH]; intros tr; simpl; [done|].
  destruct (String.eqb (Py.strip line) EmptyString).
  { intros [= Hmax <-]. split; [|by eexists].
    apply py_max_spec in Hmax as [Hin _].
    apply list_elem_of_fmap in Hin as (rev & -> & Hrev). by exists rev. }
  destruct (Py.isdigit (Py.strip line)); simpl.
  - destruct (Py.int (Py.strip line)) as [idx|e]; [|done].
    destruct ((1 <=? idx) && (idx <=? Z.of_nat (length revisions))).
    + intros [= Hitem <-]. split; [by eapply item_ok|]. by eexists.
    + intros [Hrev [later Hlater]]%IH. split; [done|].
      rewrite Hlater, <- !app_assoc. by eexists.
  - intros [Hrev [later Hlater]]%IH. split; [done|].
    rewrite Hlater, <- !app_assoc. by eexists.
Qed.

Lemma prompt_revision_choice_ok revisions w id w' :
  prompt_revision_choice revisions w = (Ok id, w') →
  (∃ rev, rev ∈ revisions ∧ id = revisionId rev)
  ∧ ∃ later, trace w' = trace w ++ later.
Proof.
  assert (∀ w, (print "Available revisions:";;
                print_lines (revision_lines revisions);;
                on_stdin (revision_choice_loop revisions)) w = (Ok id, w') →
            (∃ rev, rev ∈ revisions ∧ id = revisionId rev)
            ∧ ∃ later, trace w' = trace w ++ later) as Hloop.
  { clear w. intros w. unfold mbind, IO_bind, print, print_lines, on_stdin,
      emits, emit. simpl.
    intros [Hrev [later Hlater]]%revision_choice_loop_ok. split; [done|].
    rewrite Hlater, <- !app_assoc. by eexists. }
  destruct revisions as [|r1 [|r2 rest]]; try apply Hloop.
  intros [= <- <-]. split; [exists r1; split; [left|done]|].
  exists []. by rewrite app_nil_r.
Qed.

(** X10.  Whatever is typed, a prompt that returns an identifier returns the
    identifier of one of the items it was given; it never invents one. *)
Theorem prompt_choice_listed (songs : list SongRecord)
    (revisions : list RevisionRecord) (w w' : World) (id : Z) :
  (prompt_song_choice songs w = (Ok id, w') →
     ∃ song, song ∈ songs ∧ id = songId song)
  ∧ (prompt_revision_choice revisions w = (Ok id, w') →
       ∃ rev, rev ∈ revisions ∧ id = revisionId rev).
Proof.
  split.
  - by intros [? _]%prompt_song_choice_ok.
  - by intros [? _]%prompt_revision_choice_ok.
Qed.

Lemma prompt_choice_listed_witness :
  ∃ rev, rev ∈ [Example.rev 5 "2020" "ann"; Example.rev 9 "2019" "bob"]
         ∧ 5 = revisionId rev.
Proof.
  apply (proj2 (prompt_choice_listed []
           [Example.rev 5 "2020" "ann"; Example.rev 9 "2019" "bob"]
           (Example.typing ["0"; "1"])
           {| stdin := [];
              trace := [Print "Available revisions:";
                        Print "1) revisionId=5 createdAt=2020 author=ann";
                        Print "2) revisionId=9 createdAt=2019 author=bob";
                        Input "Choose a revision number (Enter for latest): ";
                        Print "Please enter a valid number from the list.";
                        Input "Choose a revision number (Enter for latest): "] |}
           5)).
  reflexivity.
Defined.

(** ** Resolving, in every mode *)

Lemma build_song_ids_inv (urls : list string) (ids : list Z) :
  build_song_ids_from_urls urls = Ok ids →
  Forall2 (λ u id, extract_song_id u = Ok id) urls ids.
Proof.
  revert ids. induction urls as [|u urls IH]; intros ids; simpl.
  - intros [= <-]. constructor.
  - destruct (extract_song_id u) as [id|e] eqn:Hid; [|done].
    destruct (build_song_ids_from_urls urls) as [ids'|e]; [|done].
    intros [= <-]. constructor; [done|by apply IH].
Qed.

(** X11.  A resolution that succeeds never gives an empty sequence.  For
    references that are all URL-shaped the mode makes no difference:
    nothing is asked or searched and there is one identifier per
    reference, in order.  In interactive mode without such references
    there is exactly one identifier. *)
Theorem resolve_song_ids_result (env : Env) (urls : list string)
    (interactive : bool) (max_results : Z) (w w' : World) (ids : list Z) :
  resolve_song_ids env urls interactive max_results w = (Ok ids, w') →
  ids ≠ []
  ∧ ((interactive = false ∨ (urls ≠ [] ∧ forallb is_url urls = true)) →
       w' = w ∧ Forall2 (λ u id, extract_song_id u = Ok id) urls ids)
  ∧ ((urls ≠ [] ∧ forallb is_url urls = true) →
       resolve_song_ids env urls true max_results w
       = resolve_song_ids env urls false max_results w)
  ∧ (interactive = true → (urls = [] ∨ forallb is_url urls = false) →
       ∃ id, ids = [id]).
Proof.
  intros Hrun.
  assert (∀ (m : IO Z) w0, (id ← m; mret [id]) w0 = (Ok ids, w') →
            ∃ id, ids = [id]) as Hone.
  { intros m w0. unfold mbind, IO_bind, mret, IO_ret.
    destruct (m w0) as [[id|e] w1]; [|done]. intros [= <- _]. by eexists. }
  assert (∀ w0, lift (build_song_ids_from_urls urls) w0 = (Ok ids, w') →
            urls ≠ [] →
            ids ≠ [] ∧ w' = w0
            ∧ Forall2 (λ u id, extract_song_id u = Ok id) urls ids) as Hbuild.
  { intros w0 [= Hb <-] Hne. apply build_song_ids_inv in Hb.
    split; [|done]. intros ->. apply Forall2_nil_inv_r in Hb. done. }
  split; [|split; [|split]].
  - unfold resolve_song_ids in Hrun. destruct interactive.
    + destruct urls as [|u us].
      * revert Hrun. unfold mbind at 1, IO_bind at 1.
        destruct (prompt_search_text w) as [[text|e] w1]; [|done].
        intros [id ->]%Hone. done.
      * destruct (forallb is_url (u :: us)).
        -- by apply Hbuild in Hrun as [? _].
        -- destruct (String.eqb _ _); [done|].
           apply Hone in Hrun as [id ->]. done.
    + destruct urls as [|u us]; [done|]. by apply Hbuild in Hrun as [? _].
  - intros Hcase. unfold resolve_song_ids in Hrun.
    destruct Hcase as [->|[Hne Hall]].
    + destruct urls as [|u us]; [done|]. by apply Hbuild in Hrun as (_ & ? & ?).
    + destruct urls as [|u us]; [done|]. destruct interactive.
      * rewrite Hall in Hrun. by apply Hbuild in Hrun as (_ & ? & ?).
      * by apply Hbuild in Hrun as (_ & ? & ?).
  - intros [Hne Hall]. destruct urls as [|u us]; [done|].
    unfold resolve_song_ids. by rewrite Hall.
  - intros -> Hcase. unfold resolve_song_ids in Hrun.
    destruct urls as [|u us].
    + revert Hrun. unfold mbind at 1, IO_bind at 1.
      destruct (prompt_search_text w) as [[text|e] w1]; [|done].
      apply Hone.
    + destruct Hcase as [|Hnot]; [done|]. rewrite Hnot in Hrun.
      destruct (String.eqb _ _); [done|]. by apply Hone in Hrun.
Qed.

Lemma resolve_song_ids_result_witness :
  [12; 7] ≠ []
  ∧ Forall2 (λ u id, extract_song_id u = Ok id)
      ["https://x/a-tab-s12"; "http://y/b-s7"] [12; 7].
Proof.
  destruct (resolve_song_ids_result Example.env
              ["https://x/a-tab-s12"; "http://y/b-s7"] true 20
              (Example.typing ["1"]) (Example.typing ["1"]) [12; 7] eq_refl)
    as (Hne & Hall & _).
  split; [exact Hne|].
  apply Hall. right. split; [discriminate|reflexivity].
Defined.

(** X12.  Without references, interactive mode asks for the search text.  At the
    end of the input it fails with an end-of-file error; a line that is
    blank once stripped gives the empty-search error and nothing is
    searched; any other line, stripped, is searched for, and the song
    chosen among the results is the one identifier returned. *)
Theorem resolve_song_ids_prompted (env : Env) (max_results : Z) (w : World) :
  (stdin w = [] →
     resolve_song_ids env [] true max_results w
     = (Raise EOFError, emit (Input "Search text: ") w))
  ∧ (∀ line rest, stdin w = line :: rest →
       let w1 := {| stdin := rest; trace := trace w ++ [Input "Search text: "] |} in
       (Py.strip line = EmptyString →
          resolve_song_ids env [] true max_results w
          = (Raise EmptySearchError, w1))
       ∧ (Py.strip line ≠ EmptyString →
            resolve_song_ids env [] true max_results w
            = (id ← choose_song_id env (Py.strip line) max_results; mret [id]) w1)).
Proof.
  split.
  - intros Hin. unfold resolve_song_ids, prompt_search_text, input,
      mbind, IO_bind. by rewrite Hin.
  - intros line rest Hin w1. split.
    + intros Hblank. unfold resolve_song_ids, prompt_search_text, input,
        mbind, IO_bind. by rewrite Hin, Hblank.
    + intros Hne%String.eqb_neq. unfold resolve_song_ids, prompt_search_text,
        input. unfold mbind at 1 3, IO_bind at 1 3. rewrite Hin, Hne.
      reflexivity.
Qed.

Lemma resolve_song_ids_prompted_witness :
  resolve_song_ids Example.env [] true 20 (Example.typing ["   "; "1"])
  = (Raise EmptySearchError,
     {| stdin := ["1"]; trace := [Input "Search text: "] |})
  ∧ resolve_song_ids Example.env [] true 20 Example.quiet
    = (Raise EOFError, {| stdin := []; trace := [Input "Search text: "] |}).
Proof.
  split.
  - apply (proj1 (proj2 (resolve_song_ids_prompted Example.env 20
                            (Example.typing ["   "; "1"])) "   " ["1"] eq_refl)).
    reflexivity.
  - apply (proj1 (resolve_song_ids_prompted Example.env 20 Example.quiet)).
    reflexivity.
Defined.

(** ** Looking up songs and revisions *)

(** X13.  The revisions of a song in batch mode: one request for the song's
    revisions is made and nothing is read.  The error of the request is
    passed on; an empty answer is the no-revisions error; otherwise the
    greatest revision identifier of the answer is selected and announced.
    The maximum is never taken of an empty list. *)
Theorem latest_revision_of_song (env : Env) (song_id : Z) (w : World) :
  let url := SONGSTERR_META song_id in
  let w1 := emit (HttpGet url) w in
  let run := (revisions ← get_revisions env song_id;
              select_revision false revisions) w in
  (∀ e, meta_json env url = Raise e → run = (Raise e, w1))
  ∧ (meta_json env url = Ok [] → run = (Raise NoRevisionsError, w1))
  ∧ (∀ revisions, meta_json env url = Ok revisions → revisions ≠ [] →
       ∃ m, run = (Ok m, emit (Print ("Latest revision ID: " +:+ Py.str m)) w1)
            ∧ (∃ rev, rev ∈ revisions ∧ revisionId rev = m)
            ∧ ∀ rev, rev ∈ revisions → revisionId rev ≤ m).
Proof.
  intros url w1 run. unfold run, get_revisions, http_get. fold url.
  unfold mbind at 1 2, IO_bind at 1 2. fold w1.
  split; [|split].
  - by intros e ->.
  - by intros ->.
  - intros revisions -> Hne.
    destruct (py_max_nonempty (revisionId <$> revisions)) as [m Hm].
    { by destruct revisions. }
    exists m. split.
    + destruct revisions as [|r rs]; [done|].
      unfold select_revision, get_latest_revision_id, lift, mbind, IO_bind,
        print, mret, IO_ret. by rewrite Hm.
    + apply py_max_spec in Hm as [Hin Hmax]. split.
      * apply list_elem_of_fmap in Hin as (rev & -> & Hrev). by exists rev.
      * intros rev Hrev. apply Hmax, list_elem_of_fmap. by exists rev.
Qed.

Lemma latest_revision_of_song_witness :
  ∃ m, (revisions ← get_revisions Example.env 12;
        select_revision false revisions) Example.quiet
       = (Ok m,
          emit (Print ("Latest revision ID: " +:+ Py.str m))
            (emit (HttpGet (SONGSTERR_META 12)) Example.quiet))
       ∧ (∃ rev, rev ∈ [Example.rev 5 "2020" "ann"; Example.rev 9 "2019" "bob"]
                 ∧ revisionId rev = m)
       ∧ ∀ rev, rev ∈ [Example.rev 5 "2020" "ann"; Example.rev 9 "2019" "bob"]
                → revisionId rev ≤ m.
Proof.
  apply (proj2 (proj2 (latest_revision_of_song Example.env 12 Example.quiet))
           [Example.rev 5 "2020" "ann"; Example.rev 9 "2019" "bob"]);
    [reflexivity|discriminate].
Defined.

(** X14.  Choosing a song for a search text: the search request is made first.
    Its error is passed on and an empty answer is the no-results error, in
    both cases without any prompt; a single song found is chosen without a
    prompt; and whenever a song is chosen it is one of the songs found. *)
Theorem choose_song_id_outcome (env : Env) (search_text : string)
    (max_results : Z) (w : World) :
  let url := SONGSTERR_SEARCH max_results search_text in
  let w1 := emit (HttpGet url) w in
  (∀ e, search_json env url = Raise e →
     choose_song_id env search_text max_results w = (Raise e, w1))
  ∧ (search_json env url = Ok [] →
       choose_song_id env search_text max_results w = (Raise NoResultsError, w1))
  ∧ (∀ song, search_json env url = Ok [song] →
       choose_song_id env search_text max_results w = (Ok (songId song), w1))
  ∧ (∀ id w', choose_song_id env search_text max_results w = (Ok id, w') →
       ∃ songs song, search_json env url = Ok songs ∧ song ∈ songs
                     ∧ id = songId song).
Proof.
  intros url w1. unfold choose_song_id, search_songs, http_get. fold url.
  unfold mbind at 1 2 3 4 5 6 7 8, IO_bind at 1 2 3 4 5 6 7 8. fold w1.
  split; [|split; [|split]].
  - by intros e ->.
  - by intros ->.
  - by intros song ->.
  - intros id w'. destruct (search_json env url) as [songs|e]; [|done].
    destruct songs as [|s1 ss]; [done|]. cbn beta iota.
    unfold mret at 1, IO_ret at 1.
    intros [(song & Hin & ->) _]%prompt_song_choice_ok.
    by exists (s1 :: ss), song.
Qed.

Lemma choose_song_id_outcome_witness :
  choose_song_id
    {| meta_json := meta_json Example.env;
       search_json := λ _, Ok [];
       revision_json := revision_json Example.env;
       content := content Example.env;
       open_wb := open_wb Example.env |}
    "no such song" 20 (Example.typing ["1"])
  = (Raise NoResultsError,
     emit (HttpGet (SONGSTERR_SEARCH 20 "no such song")) (Example.typing ["1"])).
Proof.
  apply (proj1 (proj2 (choose_song_id_outcome
           {| meta_json := meta_json Example.env;
              search_json := λ _, Ok [];
              revision_json := revision_json Example.env;
              content := content Example.env;
              open_wb := open_wb Example.env |}
           "no such song" 20 (Example.typing ["1"])))).
  reflexivity.
Defined.

(** ** Fetching *)

Lemma path_join_name (out_dir name : string) :
  lacks "/" name →
  Py.path_join out_dir name
  = out_dir
    +:+ (if String.eqb out_dir EmptyString || Py.endswith_char out_dir "/"
         then EmptyString else "/")
    +:+ name.
Proof.
  intros Hname. unfold Py.path_join, Py.startswith.
  assert (String.prefix "/" name = false) as ->.
  { destruct name as [|c name]; [done|].
    apply lacks_cons in Hname as [Hc _].
    change (String.prefix "/" (String c name))
      with (if Ascii.ascii_dec "/" c then String.prefix EmptyString name
            else false).
    by destruct (Ascii.ascii_dec "/" c) as [<-|_]. }
  by destruct (_ || _).
Qed.

Lemma output_filename_lacks_slash urlparse_path data source_url filename :
  output_filename urlparse_path data source_url = Ok filename →
  filename ≠ EmptyString ∧ lacks "/" filename.
Proof.
  unfold output_filename.
  destruct (urlparse_path source_url) as [path|e]; [|done].
  intros [= <-].
  assert ("/"%char ∈ sanitize_chars) as Hslash by (unfold sanitize_chars; set_solver).
  split.
  - destruct (sanitize_filename _); done.
  - apply lacks_app. split; [by apply lacks_sanitized|].
    apply (lacks_app _ " - "). split; [done|].
    apply lacks_app. split; [by apply lacks_sanitized|].
    destruct (splitext_shape path) as [_ [->|(e & -> & _ & He)]]; [done|].
    simpl. by apply lacks_cons.
Qed.

Lemma output_filename_in_directory urlparse_path data source_url filename
    out_dir :
  output_filename urlparse_path data source_url = Ok filename →
  in_directory out_dir (Py.path_join out_dir filename).
Proof.
  intros [Hne Hlacks]%output_filename_lacks_slash.
  exists filename. split; [done|split; [done|]]. by apply path_join_name.
Qed.

(** X15.  The file name built from a revision detail is not empty and has no
    slash, whatever the artist, the title and the source URL are, so the
    path written to is directly in the output directory. *)
Theorem output_path_in_directory (urlparse_path : string → result string)
    (data : RevisionDetail) (source_url filename out_dir : string) :
  output_filename urlparse_path data source_url = Ok filename →
  filename ≠ EmptyString
  ∧ lacks "/" filename
  ∧ in_directory out_dir (Py.path_join out_dir filename).
Proof.
  intros [Hne Hlacks]%output_filename_lacks_slash.
  split; [done|split; [done|]].
  exists filename. split; [done|split; [done|]]. by apply path_join_name.
Qed.

Lemma output_path_in_directory_witness :
  in_directory "tabs"
    (Py.path_join "tabs" ".._.._etc - a_b.x y").
Proof.
  apply (output_path_in_directory Example.url_path
           {| detail_source := Some "https://gp.example.org/d/f.x y";
              detail_artist := Some "../../etc";
              detail_title := Some "a/b" |}
           "https://gp.example.org/d/f.x y" ".._.._etc - a_b.x y" "tabs").
  reflexivity.
Defined.



(** ** What a run adds to the trace *)

Section Adds.

Context (P : event → Prop).

Lemma adds_only_ret {A} (a : A) : adds_only P (mret a : IO A).
Proof. intros w. exists []. split; [unfold added; simpl; by rewrite app_nil_r|done]. Qed.

Lemma adds_only_raise {A} (e : exn) : adds_only P (raise e : IO A).
Proof. intros w. exists []. split; [unfold added; simpl; by rewrite app_nil_r|done]. Qed.

Lemma adds_only_lift {A} (r : result A) : adds_only P (lift r).
Proof. intros w. exists []. split; [unfold added; simpl; by rewrite app_nil_r|done]. Qed.

Lemma adds_only_bind {A B} (m : IO A) (f : A → IO B) :
  adds_only P m → (∀ a w w', m w = (Ok a, w') → adds_only P (f a)) →
  adds_only P (m ≫= f).
Proof.
  intros Hm Hf w. destruct (Hm w) as (evs1 & H1 & F1).
  unfold added, mbind, IO_bind in *.
  destruct (m w) as [[a|e] w1] eqn:Hrun; simpl in H1.
  - destruct (Hf a w w1 Hrun w1) as (evs2 & H2 & F2). unfold added in H2.
    exists (evs1 ++ evs2). split; [by rewrite H2, H1, app_assoc|].
    by apply Forall_app.
  - by exists evs1.
Qed.

Lemma adds_only_event {A} (e : event) (r : World → result A) :
  P e → adds_only P (λ w, (r w, emit e w)).
Proof. intros He w. exists [e]. split; [done|by constructor]. Qed.

Lemma adds_only_print (text : string) :
  P (Print text) → adds_only P (print text).
Proof. intros H. by apply (adds_only_event _ (λ _, Ok tt)). Qed.

Lemma adds_only_http_get {A} (answer : string → result A) (url : string) :
  P (HttpGet url) → adds_only P (http_get answer url).
Proof. intros H. by apply (adds_only_event _ (λ _, answer url)). Qed.

Lemma adds_only_input (prompt : string) :
  P (Input prompt) → adds_only P (input prompt).
Proof.
  intros H w. exists [Input prompt]. split; [|by constructor].
  unfold added, input. by destruct (stdin w).
Qed.

Lemma adds_only_print_lines (lines : list string) :
  (∀ text, P (Print text)) → adds_only P (print_lines lines).
Proof.
  intros H w. exists (map Print lines). split; [done|].
  apply Forall_forall. intros e (text & -> & _)%list_elem_of_fmap. apply H.
Qed.

Lemma adds_only_for_each {A} (l : list A) (body : A → IO unit) :
  (∀ x, adds_only P (body x)) → adds_only P (for_each l body).
Proof.
  intros Hbody. induction l as [|x l IH]; simpl; [apply adds_only_ret|].
  apply adds_only_bind; [apply Hbody|]. intros _ _ _ _. exact IH.
Qed.

Hypothesis P_print : ∀ text, P (Print text).
Hypothesis P_http : ∀ url, P (HttpGet url).

Lemma adds_only_get_revisions env song_id :
  adds_only P (get_revisions env song_id).
Proof.
  apply adds_only_bind; [by apply adds_only_http_get|].
  intros [|r rs] _ _ _; [apply adds_only_raise|apply adds_only_ret].
Qed.

Lemma adds_only_search_songs env pattern size :
  adds_only P (search_songs env pattern size).
Proof.
  apply adds_only_bind; [by apply adds_only_http_get|].
  intros [|s ss] _ _ _; [apply adds_only_raise|apply adds_only_ret].
Qed.

Lemma adds_only_load open_read path :
  adds_only P (load_urls_from_file open_read path).
Proof.
  apply adds_only_bind; [|intros; apply adds_only_ret].
  destruct (String.eqb path "-"); [|apply adds_only_lift].
  intros w. exists []. split; [unfold added; simpl; by rewrite app_nil_r|done].
Qed.

Lemma adds_only_download urlparse_path env revision_id out_dir :
  (∀ path chunk, in_directory out_dir path →
     P (FileOpen path) ∧ P (FileWrite path chunk)) →
  adds_only P (download_gp_file urlparse_path env revision_id out_dir).
Proof.
  intros P_file. apply adds_only_bind; [by apply adds_only_http_get|].
  intros data _ _ _.
  destruct (detail_source data) as [[|c s]|]; try apply adds_only_raise.
  apply adds_only_bind; [apply adds_only_lift|].
  intros filename w w' [= Hname _].
  pose proof (output_filename_in_directory _ _ _ _ out_dir Hname) as Hin.
  apply adds_only_bind; [by apply adds_only_print|]. intros _ _ _ _.
  apply adds_only_bind; [by apply adds_only_http_get|].
  intros [chunks broken] _ _ _.
  apply adds_only_bind.
  { intros w0. unfold open_file, added.
    destruct (open_wb env _); simpl.
    - exists []. by rewrite app_nil_r.
    - exists [FileOpen (Py.path_join out_dir filename)].
      split; [done|]. constructor; [|done]. by apply P_file. }
  intros _ _ _ _. apply adds_only_bind; [|intros; by apply adds_only_print].
  intros w0. exists (map (FileWrite (Py.path_join out_dir filename))
                       (filter (λ chunk, chunk ≠ EmptyString) chunks)).
  split; [unfold added, save_chunks; by destruct broken|].
  apply Forall_forall. intros e (chunk & -> & _)%list_elem_of_fmap.
  by apply P_file.
Qed.

Lemma adds_only_select_batch revisions :
  adds_only P (select_revision false revisions).
Proof.
  apply adds_only_bind; [apply adds_only_lift|]. intros m _ _ _.
  apply adds_only_bind; [by apply adds_only_print|].
  intros; apply adds_only_ret.
Qed.

Lemma adds_only_resolve_batch env urls max_results :
  adds_only P (resolve_song_ids env urls false max_results).
Proof.
  unfold resolve_song_ids.
  destruct urls; [apply adds_only_raise|apply adds_only_lift].
Qed.

Hypothesis P_input : ∀ prompt, P (Input prompt).

Lemma song_choice_loop_adds songs lines tr :
  ∃ evs, trace (snd (song_choice_loop songs lines tr)) = tr ++ evs
         ∧ Forall P evs.
Proof.
  revert tr. induction lines as [|line rest IH]; intros tr; simpl.
  - exists [Input "Choose a song number: "]. split; [done|by constructor].
  - assert (∀ text,
              ∃ evs, trace (snd (song_choice_loop songs rest
                                   ((tr ++ [Input "Choose a song number: "])
                                    ++ [Print text])))
                     = tr ++ evs ∧ Forall P evs) as Hagain.
    { intros text. destruct (IH ((tr ++ [Input "Choose a song number: "])
                                 ++ [Print text])) as (evs & -> & Hevs).
      exists ([Input "Choose a song number: "; Print text] ++ evs).
      split; [by rewrite <- !app_assoc|].
      apply Forall_app. split; [|done]. by repeat constructor. }
    destruct (negb _); [apply Hagain|].
    destruct (Py.int _) as [idx|e]; simpl.
    + destruct (_ && _); [|apply Hagain].
      exists [Input "Choose a song number: "]. split; [done|by constructor].
    + exists [Input "Choose a song number: "]. split; [done|by constructor].
Qed.

Lemma revision_choice_loop_adds revisions lines tr :
  ∃ evs, trace (snd (revision_choice_loop revisions lines tr)) = tr ++ evs
         ∧ Forall P evs.
Proof.
  revert tr. induction lines as [|line rest IH]; intros tr; simpl.
  - eexists [_]. split; [done|by constructor].
  - assert (∀ text,
              ∃ evs,
                trace (snd (revision_choice_loop revisions rest
                              ((tr ++ [Input "Choose a revision number (Enter for latest): "])
                               ++ [Print text])))
                = tr ++ evs ∧ Forall P evs) as Hagain.
    { intros text.
      destruct (IH ((tr ++ [Input "Choose a revision number (Enter for latest): "])
                    ++ [Print text])) as (evs & -> & Hevs).
      exists ([Input "Choose a revision number (Enter for latest): "; Print text]
              ++ evs).
      split; [by rewrite <- !app_assoc|].
      apply Forall_app. split; [|done]. by repeat constructor. }
    destruct (String.eqb _ _); simpl.
    { eexists [_]. split; [done|by constructor]. }
    destruct (negb _); [apply Hagain|].
    destruct (Py.int _) as [idx|e]; simpl.
    + destruct (_ && _); [|apply Hagain].
      eexists [_]. split; [done|by constructor].
    + eexists [_]. split; [done|by constructor].
Qed.

Lemma adds_only_prompt_song songs : adds_only P (prompt_song_choice songs).
Proof.
  assert (adds_only P (print "Search results:";;
                       print_lines (song_lines songs);;
                       on_stdin (song_choice_loop songs))) as Hloop.
  { apply adds_only_bind; [by apply adds_only_print|]. intros _ _ _ _.
    apply adds_only_bind; [by apply adds_only_print_lines|]. intros _ _ _ _.
    intros w. apply song_choice_loop_adds. }
  destruct songs as [|s1 [|s2 ss]]; try apply Hloop. apply adds_only_ret.
Qed.

Lemma adds_only_prompt_revision revisions :
  adds_only P (prompt_revision_choice revisions).
Proof.
  assert (adds_only P (print "Available revisions:";;
                       print_lines (revision_lines revisions);;
                       on_stdin (revision_choice_loop revisions))) as Hloop.
  { apply adds_only_bind; [by apply adds_only_print|]. intros _ _ _ _.
    apply adds_only_bind; [by apply adds_only_print_lines|]. intros _ _ _ _.
    intros w. apply revision_choice_loop_adds. }
  destruct revisions as [|r1 [|r2 rs]]; try apply Hloop. apply adds_only_ret.
Qed.

Lemma adds_only_choose env search_text max_results :
  adds_only P (choose_song_id env search_text max_results).
Proof.
  apply adds_only_bind; [apply adds_only_search_songs|].
  intros; apply adds_only_prompt_song.
Qed.

Lemma adds_only_resolve env urls interactive max_results :
  adds_only P (resolve_song_ids env urls interactive max_results).
Proof.
  destruct interactive; [|apply adds_only_resolve_batch].
  unfold resolve_song_ids. destruct urls as [|u us].
  - apply adds_only_bind.
    + unfold prompt_search_text.
      apply adds_only_bind; [by apply adds_only_input|]. intros line _ _ _.
      cbv zeta.
      destruct (String.eqb (Py.strip line) EmptyString);
        [apply adds_only_raise|apply adds_only_ret].
    + intros text _ _ _. apply adds_only_bind; [apply adds_only_choose|].
      intros; apply adds_only_ret.
  - destruct (forallb is_url _); [apply adds_only_lift|]. cbv zeta.
    destruct (String.eqb (Py.strip (Py.join " " (u :: us))) EmptyString);
      [apply adds_only_raise|].
    apply adds_only_bind; [apply adds_only_choose|].
    intros; apply adds_only_ret.
Qed.

Lemma adds_only_select revisions :
  adds_only P (select_revision true revisions).
Proof.
  apply adds_only_bind; [apply adds_only_prompt_revision|]. intros m _ _ _.
  apply adds_only_bind; [by apply adds_only_print|].
  intros; apply adds_only_ret.
Qed.

End Adds.

Lemma adds_only_main_try (P : event → Prop) urlparse_path open_read makedirs
    isatty env args :
  (∀ text, P (Print text)) → (∀ url, P (HttpGet url)) →
  (∀ path chunk, in_directory (args_out args) path →
     P (FileOpen path) ∧ P (FileWrite path chunk)) →
  (args_interactive args = true → ∀ prompt, P (Input prompt)) →
  adds_only P (main_try urlparse_path open_read makedirs isatty env args).
Proof.
  intros P_print P_http P_file P_input. unfold main_try.
  apply adds_only_bind.
  { intros w. exists []. split; [|done]. unfold added.
    destruct (makedirs _); simpl; by rewrite app_nil_r. }
  intros _ _ _ _. apply adds_only_bind.
  { unfold collect_urls.
    assert (∀ path, adds_only P
              (more ← load_urls_from_file open_read path;
               mret (args_url args ++ more))) as Hload.
    { intros path. apply adds_only_bind; [apply adds_only_load|].
      intros; apply adds_only_ret. }
    destruct (args_file args) as [[|c file]|].
    - destruct (_ && _); [apply Hload|apply adds_only_ret].
    - apply Hload.
    - destruct (_ && _); [apply Hload|apply adds_only_ret]. }
  intros urls _ _ _. unfold main_body.
  destruct (args_interactive args) eqn:Hmode.
  - apply adds_only_bind; [by apply adds_only_resolve; auto|].
    intros ids _ _ _. apply adds_only_for_each. intros id.
    apply adds_only_bind; [by apply adds_only_print|]. intros _ _ _ _.
    apply adds_only_bind; [by apply adds_only_get_revisions|]. intros revs _ _ _.
    apply adds_only_bind; [by apply adds_only_select; auto|]. intros m _ _ _.
    by apply adds_only_download.
  - apply adds_only_bind; [apply adds_only_resolve_batch|].
    intros ids _ _ _. apply adds_only_for_each. intros id.
    apply adds_only_bind; [by apply adds_only_print|]. intros _ _ _ _.
    apply adds_only_bind; [by apply adds_only_get_revisions|]. intros revs _ _ _.
    apply adds_only_bind; [by apply adds_only_select_batch|]. intros m _ _ _.
    by apply adds_only_download.
Qed.

Lemma main_world urlparse_path open_read makedirs isatty env args w :
  snd (main urlparse_path open_read makedirs isatty env args w)
  = snd (main_try urlparse_path open_read makedirs isatty env args w).
Proof. unfold main. by destruct (main_try _ _ _ _ _ _ _) as [[[]|e] w']. Qed.

(** ** The command as a whole *)

(** X17.  Without the interactive flag the command never asks anything: whatever
    the arguments, the files, the service and the input are, and however
    the run ends, no prompt is among the events it adds. *)
Theorem main_never_prompts (urlparse_path open_read : string → result string)
    (makedirs : string → option exn) (isatty : bool) (env : Env) (args : Args)
    (w : World) :
  args_interactive args = false →
  ∃ evs,
    trace (snd (main urlparse_path open_read makedirs isatty env args w))
    = trace w ++ evs
    ∧ Forall (λ e, ¬ is_prompt e) evs.
Proof.
  intros Hmode. rewrite main_world.
  apply (adds_only_main_try (λ e, ¬ is_prompt e)); try (intros; simpl; tauto).
  intros Hmode'. congruence.
Qed.

Lemma main_never_prompts_witness :
  ∃ evs,
    trace (snd (main Example.url_path (λ _, Ok EmptyString) (λ _, None) false
                  Example.env
                  {| args_url := []; args_out := "out"; args_file := None;
                     args_interactive := false; args_max_results := 20 |}
                  (Example.typing ["https://x/tab-s3"; "1"])))
    = trace (Example.typing ["https://x/tab-s3"; "1"]) ++ evs
    ∧ Forall (λ e, ¬ is_prompt e) evs.
Proof. apply main_never_prompts. reflexivity. Defined.


Lemma for_each_app {A} (l1 l2 : list A) (body : A → IO unit) (w : World) :
  for_each (l1 ++ l2) body w
  = (for_each l1 body;; for_each l2 body) w.
Proof.
  revert w. induction l1 as [|x l1 IH]; intros w; simpl; [done|].
  unfold mbind, IO_bind in *. destruct (body x w) as [[[]|e] w1]; [|done].
  apply IH.
Qed.

(** X19.  The songs are fetched one after the other, and the first failure ends
    the run: once the references are resolved and the songs before one are
    fetched, an error in fetching that song is the error of the run, the
    world is the one that error left, and the songs after it are not
    looked up. *)
Theorem main_body_stops_at_first_error
    (urlparse_path : string → result string) (env : Env) (urls : list string)
    (interactive : bool) (max_results : Z) (out : string)
    (fetched later : list Z) (song_id : Z) (e : exn) (w w0 w1 w2 : World) :
  resolve_song_ids env (dedupe_preserve_order urls) interactive max_results w
  = (Ok (fetched ++ song_id :: later), w0) →
  for_each fetched (process_song urlparse_path env interactive out) w0
  = (Ok tt, w1) →
  process_song urlparse_path env interactive out song_id w1 = (Raise e, w2) →
  main_body urlparse_path env urls interactive max_results out w
  = (Raise e, w2).
Proof.
  intros Hresolve Hfetched Hfail.
  change (main_body urlparse_path env urls interactive max_results out)
    with (song_ids ← resolve_song_ids env (dedupe_preserve_order urls)
                       interactive max_results;
          for_each song_ids (process_song urlparse_path env interactive out)).
  unfold mbind at 1, IO_bind at 1. rewrite Hresolve, for_each_app.
  unfold mbind at 1, IO_bind at 1. rewrite Hfetched. simpl.
  unfold mbind at 1, IO_bind at 1. by rewrite Hfail.
Qed.

Lemma main_body_stops_at_first_error_witness :
  main_body Example.url_path
    {| meta_json := λ url,
         if String.eqb url (SONGSTERR_META 7) then Ok []
         else meta_json Example.env url;
       search_json := search_json Example.env;
       revision_json := revision_json Example.env;
       content := content Example.env;
       open_wb := open_wb Example.env |}
    ["a-s12"; "b-s7"; "c-s5"] false 20 "out" Example.quiet
  = (Raise NoRevisionsError,
     {| stdin := [];
        trace := [Print "Song ID: 12";
                  HttpGet "https://www.songsterr.com/api/meta/12/revisions";
                  Print "Latest revision ID: 9";
                  HttpGet "https://www.songsterr.com/api/revision/9";
                  Print "Downloading: https://gp.example.org/d/file.gp5?x=1";
                  HttpGet "https://gp.example.org/d/file.gp5?x=1";
                  FileOpen "out/AC_DC - T.N.T..gp5";
                  FileWrite "out/AC_DC - T.N.T..gp5" "abc";
                  FileWrite "out/AC_DC - T.N.T..gp5" "de";
                  Print "Saved as: out/AC_DC - T.N.T..gp5";
                  Print "Song ID: 7";
                  HttpGet "https://www.songsterr.com/api/meta/7/revisions"] |}).
Proof.
  eapply (main_body_stops_at_first_error _ _ _ _ _ _ [12] [5] 7);
    reflexivity.
Defined.

(** X20.  In interactive mode the words given on the command line are joined
    into the search text after the duplicates are removed, so a word given
    twice is searched for once.  When the search finds nothing the run ends
    with the no-results error after that one request: nothing is asked and
    no file is opened. *)
Theorem main_body_no_results (urlparse_path : string → result string)
    (env : Env) (urls : list string) (max_results : Z) (out : string)
    (w : World) :
  let query := Py.strip (Py.join " " (dedupe_preserve_order urls)) in
  urls ≠ [] →
  forallb is_url (dedupe_preserve_order urls) = false →
  query ≠ EmptyString →
  search_json env (SONGSTERR_SEARCH max_results query) = Ok [] →
  main_body urlparse_path env urls true max_results out w
  = (Raise NoResultsError,
     emit (HttpGet (SONGSTERR_SEARCH max_results query)) w).
Proof.
  intros query Hne Hnot Hquery%String.eqb_neq Hsearch. subst query.
  unfold main_body, resolve_song_ids.
  destruct (dedupe_preserve_order urls) as [|r rs] eqn:Hrefs.
  { destruct urls as [|u us]; [done|]. by rewrite dedupe_cons in Hrefs. }
  rewrite Hnot. cbv zeta. rewrite Hquery.
  unfold choose_song_id, search_songs, http_get, mbind, IO_bind.
  by rewrite Hsearch.
Qed.

Lemma main_body_no_results_witness :
  main_body Example.url_path
    {| meta_json := meta_json Example.env;
       search_json := λ _, Ok [];
       revision_json := revision_json Example.env;
       content := content Example.env;
       open_wb := open_wb Example.env |}
    ["bye"; "bye"; "love"] true 20 "out" (Example.typing ["1"])
  = (Raise NoResultsError,
     {| stdin := ["1"];
        trace := [HttpGet "https://www.songsterr.com/api/songs?size=20&pattern=bye love"] |}).
Proof.
  apply (main_body_no_results Example.url_path
           {| meta_json := meta_json Example.env;
              search_json := λ _, Ok [];
              revision_json := revision_json Example.env;
              content := content Example.env;
              open_wb := open_wb Example.env |}
           ["bye"; "bye"; "love"] 20 "out" (Example.typing ["1"]));
    (discriminate || reflexivity).
Defined.

Lemma download_gp_file_saved urlparse_path env revision_id out_dir w data
    source_url filename chunks :
  revision_json env (SONGSTERR_REVISION revision_id) = Ok data →
  detail_source data = Some source_url → source_url ≠ EmptyString →
  output_filename urlparse_path data source_url = Ok filename →
  content env source_url = Ok (chunks, None) →
  open_wb env (Py.path_join out_dir filename) = None →
  download_gp_file urlparse_path env revision_id out_dir w
  = (Ok tt,
     emits ([HttpGet (SONGSTERR_REVISION revision_id);
             Print ("Downloading: " +:+ source_url);
             HttpGet source_url;
             FileOpen (Py.path_join out_dir filename)]
            ++ (FileWrite (Py.path_join out_dir filename)
                  <$> filter (λ chunk, chunk ≠ EmptyString) chunks)
            ++ [Print ("Saved as: " +:+ Py.path_join out_dir filename)]) w).
Proof.
  intros Hdata Hsource Hne Hname Hcontent Hopen.
  unfold download_gp_file, http_get, mbind, IO_bind. rewrite Hdata, Hsource.
  destruct source_url as [|c s]; [done|].
  unfold lift. rewrite Hname. unfold print. cbv beta iota zeta.
  rewrite Hcontent. unfold open_file. rewrite Hopen.
  unfold save_chunks, emits, emit. cbn [trace stdin].
  by rewrite <- !app_assoc.
Qed.

(** X21.  One reference and nothing failing.  With a single reference on the
    command line in batch mode, an identifier in it, a revision list that
    is not empty, a revision detail with a source, and the directory, the
    asset and the file all at hand, the command ends with status 0, having
    looked up the song, selected its latest revision and written one
    file, in this order and with nothing else done. *)
Theorem main_single_song (urlparse_path open_read : string → result string)
    (makedirs : string → option exn) (isatty : bool) (env : Env)
    (reference out source_url filename : string) (max_results song_id m : Z)
    (revisions : list RevisionRecord) (data : RevisionDetail)
    (chunks : list string) (w : World) :
  makedirs out = None →
  extract_song_id reference = Ok song_id →
  meta_json env (SONGSTERR_META song_id) = Ok revisions →
  get_latest_revision_id revisions = Ok m →
  revision_json env (SONGSTERR_REVISION m) = Ok data →
  detail_source data = Some source_url → source_url ≠ EmptyString →
  output_filename urlparse_path data source_url = Ok filename →
  content env source_url = Ok (chunks, None) →
  open_wb env (Py.path_join out filename) = None →
  main urlparse_path open_read makedirs isatty env
    {| args_url := [reference]; args_out := out; args_file := None;
       args_interactive := false; args_max_results := max_results |} w
  = (0,
     emits ([Print ("Song ID: " +:+ Py.str song_id);
             HttpGet (SONGSTERR_META song_id);
             Print ("Latest revision ID: " +:+ Py.str m);
             HttpGet (SONGSTERR_REVISION m);
             Print ("Downloading: " +:+ source_url);
             HttpGet source_url;
             FileOpen (Py.path_join out filename)]
            ++ (FileWrite (Py.path_join out filename)
                  <$> filter (λ chunk, chunk ≠ EmptyString) chunks)
            ++ [Print ("Saved as: " +:+ Py.path_join out filename)]) w).
Proof.
  intros Hdir Hid Hmeta Hmax Hdata Hsource Hne Hname Hcontent Hopen.
  assert (revisions ≠ []) as Hrevs by (by intros ->).
  set (args := {| args_url := [reference]; args_out := out; args_file := None;
                  args_interactive := false; args_max_results := max_results |}).
  assert (collect_urls open_read isatty args w = (Ok [reference], w)) as Hcollect.
  { unfold collect_urls. cbn [args args_file args_url args_interactive].
    by rewrite bool_decide_eq_false_2. }
  assert (resolve_song_ids env (dedupe_preserve_order [reference]) false
            max_results w = (Ok [song_id], w)) as Hresolve.
  { rewrite dedupe_cons. cbn [dedupe_preserve_order dedupe_loop].
    rewrite filter_nil. unfold resolve_song_ids, lift. simpl. by rewrite Hid. }
  assert (process_song urlparse_path env false out song_id w
          = (Ok tt,
             emits ([Print ("Song ID: " +:+ Py.str song_id);
                     HttpGet (SONGSTERR_META song_id);
                     Print ("Latest revision ID: " +:+ Py.str m);
                     HttpGet (SONGSTERR_REVISION m);
                     Print ("Downloading: " +:+ source_url);
                     HttpGet source_url;
                     FileOpen (Py.path_join out filename)]
                    ++ (FileWrite (Py.path_join out filename)
                          <$> filter (λ chunk, chunk ≠ EmptyString) chunks)
                    ++ [Print ("Saved as: " +:+ Py.path_join out filename)]) w))
    as Hsong.
  { unfold process_song, get_revisions, http_get, select_revision, lift, print.
    unfold mbind, IO_bind. rewrite Hmeta.
    destruct revisions as [|r rs]; [done|].
    unfold mret, IO_ret. rewrite Hmax.
    rewrite (download_gp_file_saved _ _ _ _ _ _ _ _ _
               Hdata Hsource Hne Hname Hcontent Hopen).
    unfold emits, emit. cbn [trace stdin]. by rewrite <- !app_assoc. }
  unfold main, main_try. unfold mbind at 1 2, IO_bind at 1 2.
  cbn [args args_out args_interactive args_max_results]. rewrite Hdir.
  fold args. rewrite Hcollect.
  change (main_body urlparse_path env [reference] false max_results out)
    with (song_ids ← resolve_song_ids env (dedupe_preserve_order [reference])
                       false max_results;
          for_each song_ids (process_song urlparse_path env false out)).
  unfold mbind at 1, IO_bind at 1. rewrite Hresolve. cbn [for_each].
  unfold mbind at 1, IO_bind at 1. by rewrite Hsong.
Qed.

Lemma main_single_song_witness :
  main Example.url_path (λ _, Raise (OSError "unused")) (λ _, None) true
    Example.env
    {| args_url := ["https://www.songsterr.com/a/wsa/tab-s12"];
       args_out := "./output"; args_file := None;
       args_interactive := false; args_max_results := 20 |} Example.quiet
  = (0,
     {| stdin := [];
        trace := [Print "Song ID: 12";
                  HttpGet "https://www.songsterr.com/api/meta/12/revisions";
                  Print "Latest revision ID: 9";
                  HttpGet "https://www.songsterr.com/api/revision/9";
                  Print "Downloading: https://gp.example.org/d/file.gp5?x=1";
                  HttpGet "https://gp.example.org/d/file.gp5?x=1";
                  FileOpen "./output/AC_DC - T.N.T..gp5";
                  FileWrite "./output/AC_DC - T.N.T..gp5" "abc";
                  FileWrite "./output/AC_DC - T.N.T..gp5" "de";
                  Print "Saved as: ./output/AC_DC - T.N.T..gp5"] |}).
Proof.
  apply (main_single_song Example.url_path (λ _, Raise (OSError "unused"))
           (λ _, None) true Example.env
           "https://www.songsterr.com/a/wsa/tab-s12" "./output"
           "https://gp.example.org/d/file.gp5?x=1" "AC_DC - T.N.T..gp5"
           20 12 9 [Example.rev 5 "2020" "ann"; Example.rev 9 "2019" "bob"]
           {| detail_source := Some "https://gp.example.org/d/file.gp5?x=1";
              detail_artist := Some "AC/DC";
              detail_title := Some "T.N.T." |}
           ["abc"; EmptyString; "de"] Example.quiet);
    (discriminate || reflexivity).
Defined.
